(** * Mining Data Analytics API: the aggregation and record-access layer

    A shallow embedding of [app/services/mining.py], [app/api/analytics.py]
    and [app/tasks/mining_tasks.py], with the tables of
    [app/models/mining.py].

    Conventions of the embedding:
    - a Python [int] is a [Z]; a [date] is its ordinal day number and a
      [datetime] a number of ticks, both [Z];
    - a [Float] column or Python [float] is an exact rational [Q]; rounding
      error of binary floating point is outside the model, and numeric results
      are compared with [==];
    - a nullable column, and the result of an SQL aggregate, is an [option],
      [None] being SQL NULL and Python [None];
    - a table is the list of its rows in storage order. *)

From Stdlib Require Import QArith Qround.
From stdpp Require Import gmap strings list sorting.

(** ** Python values *)

Module Py.

(** Truth value of a [float]: everything but zero. *)
Definition truthy_float (q : Q) : bool := negb (Qeq_bool q 0).

(** Truth value of an [int]. *)
Definition truthy_int (z : Z) : bool := negb (z =? 0)%Z.

(** Truth value of a [str]. *)
Definition truthy_str (s : string) : bool := negb (String.eqb s "").

(** [x or d] where [x] is a float or [None]. *)
Definition or_float (x : option Q) (d : Q) : Q :=
  match x with
  | Some q => if truthy_float q then q else d
  | None => d
  end.

(** [x or d] where [x] is an int or [None]. *)
Definition or_int (x : option Z) (d : Z) : Z :=
  match x with
  | Some z => if truthy_int z then z else d
  | None => d
  end.

(** [if x:] for an [Optional[int]] argument. *)
Definition truthy_opt_int (x : option Z) : bool :=
  match x with Some z => truthy_int z | None => false end.

(** [if x:] for an [Optional[str]] argument. *)
Definition truthy_opt_str (x : option string) : bool :=
  match x with Some s => truthy_str s | None => false end.

End Py.

(** ** SQL aggregates and ordering *)

Module Sql.

Definition Qsum (xs : list Q) : Q := foldr Qplus 0%Q xs.

(** The non-NULL values of a column. *)
Definition non_null {A} (xs : list (option A)) : list A := omap id xs.

(** [SUM(col)]: NULL when no non-NULL value was seen. *)
Definition sum (xs : list (option Q)) : option Q :=
  match non_null xs with
  | [] => None
  | ys => Some (Qsum ys)
  end.

(** [AVG(col)]: NULL when no non-NULL value was seen. *)
Definition avg (xs : list (option Q)) : option Q :=
  match non_null xs with
  | [] => None
  | ys => Some (Qsum ys / inject_Z (Z.of_nat (length ys)))%Q
  end.

(** [COUNT(col)]: the number of non-NULL values. *)
Definition count {A} (xs : list (option A)) : Z :=
  Z.of_nat (length (non_null xs)).

(** [COUNT(DISTINCT col)]. *)
Definition count_distinct `{EqDecision A} (xs : list (option A)) : Z :=
  Z.of_nat (length (remove_dups (non_null xs))).

(** [GROUP BY key]: one group per distinct key, in order of first
    appearance, each with its rows. *)
Definition group_by {A} `{EqDecision K} (key : A → K) (rows : list A)
  : list (K * list A) :=
  (λ k, (k, filter (λ a, key a = k) rows)) <$> remove_dups (key <$> rows).

(** The engine a session is bound to.  [app/db/database.py] creates the
    engine for PostgreSQL, [tests/conftest.py] one for SQLite. *)
Inductive Dialect := PostgreSQL | SQLite.

(** Ascending order of a nullable key.  PostgreSQL sorts NULL as larger
    than every value, SQLite as smaller than every value. *)
Definition le_null {A} (d : Dialect) (le : relation A) : relation (option A) :=
  λ x y,
    match x, y with
    | None, None => True
    | None, Some _ => d = SQLite
    | Some _, None => d = PostgreSQL
    | Some a, Some b => le a b
    end.

(** [ORDER BY key] and [ORDER BY key DESC]. *)
Definition order_by {A K} (le : relation K) `{∀ x y, Decision (le x y)}
    (key : A → K) (rows : list A) : list A :=
  merge_sort (λ a b, le (key a) (key b)) rows.

Definition order_by_desc {A K} (le : relation K) `{∀ x y, Decision (le x y)}
    (key : A → K) (rows : list A) : list A :=
  merge_sort (λ a b, le (key b) (key a)) rows.

(** [OFFSET skip LIMIT limit]. *)
Definition offset_limit {A} (skip limit : nat) (rows : list A) : list A :=
  take limit (drop skip rows).

End Sql.

Global Instance Dialect_eq_dec : EqDecision Sql.Dialect.
Proof. solve_decision. Defined.

Global Instance le_null_dec {A} (d : Sql.Dialect) (le : relation A)
  `{∀ x y, Decision (le x y)} (x y : option A) : Decision (Sql.le_null d le x y).
Proof. destruct x, y; simpl; apply _. Defined.

Global Instance Qle_dec (x y : Q) : Decision (x <= y)%Q.
Proof.
  destruct (Qle_bool x y) eqn:E.
  - left. by apply Qle_bool_iff.
  - right. intros H. apply Qle_bool_iff in H. congruence.
Defined.

(** ** The tables of [app/models/mining.py] *)

Inductive ShiftType := DAY | NIGHT | MORNING | AFTERNOON.
Inductive EquipmentStatus := OPERATIONAL | MAINTENANCE | REPAIR | DECOMMISSIONED.
Inductive MaintenanceType := PREVENTIVE | CORRECTIVE | EMERGENCY | SCHEDULED.

(** [EquipmentStatus.value] *)
Definition EquipmentStatus_value (s : EquipmentStatus) : string :=
  match s with
  | OPERATIONAL => "operational"
  | MAINTENANCE => "maintenance"
  | REPAIR => "repair"
  | DECOMMISSIONED => "decommissioned"
  end.

Global Instance EquipmentStatus_eq_dec : EqDecision EquipmentStatus.
Proof. solve_decision. Defined.

Module MiningShift.
Record t := mk {
  id : Z;
  shift_date : Z;
  shift_type : ShiftType;
  mine_section : string;
  supervisor_id : option Z;
  workers_count : option Z;
  start_time : Z;
  end_time : option Z;
  notes : option string;
  created_at : option Z;
  updated_at : option Z
}.
End MiningShift.

Module ProductionRecord.
Record t := mk {
  id : Z;
  shift_id : Z;
  equipment_id : option Z;
  ore_extracted_tonnes : option Q;
  waste_removed_tonnes : option Q;
  ore_grade_percentage : option Q;
  depth_meters : option Q;
  mining_level : option string;
  stope_number : option string;
  contamination_level : option Q;
  moisture_content : option Q;
  recorded_at : option Z;
  created_at : option Z;
  updated_at : option Z
}.
End ProductionRecord.

Module Equipment.
Record t := mk {
  id : Z;
  equipment_code : string;
  name : string;
  equipment_type : string;
  manufacturer : option string;
  model : option string;
  year_manufactured : option Z;
  status : option EquipmentStatus;
  capacity_tonnes : option Q;
  fuel_type : option string;
  operating_hours : option Q;
  current_location : option string;
  assigned_section : option string;
  commissioned_date : option Z;
  last_maintenance_date : option Z;
  next_maintenance_date : option Z;
  created_at : option Z;
  updated_at : option Z
}.
End Equipment.

Module MaintenanceLog.
Record t := mk {
  id : Z;
  equipment_id : Z;
  maintenance_type : MaintenanceType;
  description : string;
  technician_name : option string;
  labor_hours : option Q;
  parts_cost : option Q;
  total_cost : option Q;
  parts_replaced : option string;
  is_completed : option bool;
  scheduled_date : option Z;
  completed_date : option Z;
  created_at : option Z;
  updated_at : option Z
}.
End MaintenanceLog.

(** A session: the engine it is bound to and the rows it sees. *)
Record Session := {
  bind : Sql.Dialect;
  mining_shifts : list MiningShift.t;
  production_records : list ProductionRecord.t;
  equipment : list Equipment.t;
  maintenance_logs : list MaintenanceLog.t
}.

(** The primary keys the store enforces. *)
Definition shift_ids_unique (db : Session) : Prop :=
  NoDup (MiningShift.id <$> mining_shifts db).
Definition equipment_ids_unique (db : Session) : Prop :=
  NoDup (Equipment.id <$> equipment db).

(** ** The report shapes of [app/schemas/mining.py] *)

Module ProductionStats.
Record t := mk {
  total_ore_extracted : Q;
  total_waste_removed : Q;
  average_ore_grade : Q;
  total_shifts : Z;
  average_workers_per_shift : Q;
  period_start : Z;
  period_end : Z
}.
End ProductionStats.

Module DailyProduction.
Record t := mk {
  date : Z;
  total_ore : Q;
  total_waste : Q;
  shift_count : Z;
  equipment_used : Z
}.
End DailyProduction.

(** The dictionaries returned by [get_equipment_utilization]. *)
Module EquipmentUtilization.
Record t := mk {
  equipment_code : string;
  name : string;
  equipment_type : string;
  status : option string;
  total_production_records : Z;
  total_ore_extracted : Q
}.
End EquipmentUtilization.

(** ** [app/services/mining.py] *)

Module MiningService.

Definition in_period (start_date end_date : Z) (s : MiningShift.t) : Prop :=
  (start_date ≤ MiningShift.shift_date s ∧ MiningShift.shift_date s ≤ end_date)%Z.

Global Instance in_period_dec start_date end_date s :
  Decision (in_period start_date end_date s).
Proof. unfold in_period. apply _. Defined.
Global Typeclasses Opaque in_period.

(** *** Listing operations

    An optional argument is tested with [if arg:], so 0 and the empty string
    are skipped like [None]; a [date] and a member of [EquipmentStatus] are
    always true; [is_completed] alone is tested with [is not None].  [skip]
    and [limit] are the non-negative numbers the routes let through. *)

Definition get_shifts (db : Session) (skip limit : nat)
    (start_date end_date : option Z) (mine_section : option string)
  : list MiningShift.t :=
  let query := mining_shifts db in
  let query :=
    match start_date with
    | Some d => filter (λ s, (d ≤ MiningShift.shift_date s)%Z) query
    | None => query
    end in
  let query :=
    match end_date with
    | Some d => filter (λ s, (MiningShift.shift_date s ≤ d)%Z) query
    | None => query
    end in
  let query :=
    if Py.truthy_opt_str mine_section
    then filter (λ s, Some (MiningShift.mine_section s) = mine_section) query
    else query in
  Sql.offset_limit skip limit
    (Sql.order_by_desc Z.le MiningShift.shift_date query).

Definition get_production_records (db : Session) (skip limit : nat)
    (shift_id equipment_id : option Z) : list ProductionRecord.t :=
  let query := production_records db in
  let query :=
    if Py.truthy_opt_int shift_id
    then filter (λ r, Some (ProductionRecord.shift_id r) = shift_id) query
    else query in
  let query :=
    if Py.truthy_opt_int equipment_id
    then filter (λ r, ProductionRecord.equipment_id r = equipment_id) query
    else query in
  Sql.offset_limit skip limit
    (Sql.order_by_desc (Sql.le_null (bind db) Z.le)
       ProductionRecord.recorded_at query).

Definition get_all_equipment (db : Session) (skip limit : nat)
    (status : option EquipmentStatus) (equipment_type : option string)
  : list Equipment.t :=
  let query := equipment db in
  let query :=
    match status with
    | Some st => filter (λ e, Equipment.status e = Some st) query
    | None => query
    end in
  let query :=
    if Py.truthy_opt_str equipment_type
    then filter (λ e, Some (Equipment.equipment_type e) = equipment_type) query
    else query in
  Sql.offset_limit skip limit
    (Sql.order_by (λ a b, String.leb a b) Equipment.equipment_code query).

Definition get_maintenance_logs (db : Session) (skip limit : nat)
    (equipment_id : option Z) (is_completed : option bool)
  : list MaintenanceLog.t :=
  let query := maintenance_logs db in
  let query :=
    if Py.truthy_opt_int equipment_id
    then filter (λ l, Some (MaintenanceLog.equipment_id l) = equipment_id) query
    else query in
  let query :=
    match is_completed with
    | Some b => filter (λ l, MaintenanceLog.is_completed l = Some b) query
    | None => query
    end in
  Sql.offset_limit skip limit
    (Sql.order_by_desc (Sql.le_null (bind db) Z.le)
       MaintenanceLog.created_at query).

(** *** Analytics operations *)

(** [ProductionRecord JOIN MiningShift ON shift_id = MiningShift.id] *)
Definition records_join_shifts (db : Session)
  : list (ProductionRecord.t * MiningShift.t) :=
  r ← production_records db;
  s ← mining_shifts db;
  if decide (ProductionRecord.shift_id r = MiningShift.id s) then [(r, s)] else [].

Definition get_production_stats (db : Session) (start_date end_date : Z)
  : ProductionStats.t :=
  let rows :=
    filter (λ rs, in_period start_date end_date rs.2) (records_join_shifts db) in
  let total_ore := Sql.sum ((ProductionRecord.ore_extracted_tonnes ∘ fst) <$> rows) in
  let total_waste := Sql.sum ((ProductionRecord.waste_removed_tonnes ∘ fst) <$> rows) in
  let avg_grade := Sql.avg ((ProductionRecord.ore_grade_percentage ∘ fst) <$> rows) in
  let shifts := filter (in_period start_date end_date) (mining_shifts db) in
  let total_shifts := Sql.count ((Some ∘ MiningShift.id) <$> shifts) in
  let avg_workers :=
    Sql.avg ((fmap inject_Z ∘ MiningShift.workers_count) <$> shifts) in
  {| ProductionStats.total_ore_extracted := Py.or_float total_ore 0;
     ProductionStats.total_waste_removed := Py.or_float total_waste 0;
     ProductionStats.average_ore_grade := Py.or_float avg_grade 0;
     ProductionStats.total_shifts := Py.or_int (Some total_shifts) 0;
     ProductionStats.average_workers_per_shift := Py.or_float avg_workers 0;
     ProductionStats.period_start := start_date;
     ProductionStats.period_end := end_date |}.

(** [MiningShift JOIN ProductionRecord ON MiningShift.id = shift_id] *)
Definition shifts_join_records (db : Session)
  : list (MiningShift.t * ProductionRecord.t) :=
  s ← mining_shifts db;
  r ← production_records db;
  if decide (MiningShift.id s = ProductionRecord.shift_id r) then [(s, r)] else [].

(** The columns selected for one group of the daily query: the date, the two
    [SUM]s and the two [COUNT(DISTINCT ...)]. *)
Definition daily_row (g : Z * list (MiningShift.t * ProductionRecord.t))
  : Z * (option Q * option Q * Z * Z) :=
  (g.1,
   (Sql.sum ((ProductionRecord.ore_extracted_tonnes ∘ snd) <$> g.2),
    Sql.sum ((ProductionRecord.waste_removed_tonnes ∘ snd) <$> g.2),
    Sql.count_distinct ((Some ∘ MiningShift.id ∘ fst) <$> g.2),
    Sql.count_distinct ((ProductionRecord.equipment_id ∘ snd) <$> g.2))).

(** The [DailyProduction(...)] built from a result row. *)
Definition daily_entry (r : Z * (option Q * option Q * Z * Z))
  : DailyProduction.t :=
  let '(date, (total_ore, total_waste, shift_count, equipment_used)) := r in
  {| DailyProduction.date := date;
     DailyProduction.total_ore := Py.or_float total_ore 0;
     DailyProduction.total_waste := Py.or_float total_waste 0;
     DailyProduction.shift_count := Py.or_int (Some shift_count) 0;
     DailyProduction.equipment_used := Py.or_int (Some equipment_used) 0 |}.

Definition get_daily_production (db : Session) (start_date end_date : Z)
  : list DailyProduction.t :=
  let rows :=
    filter (λ sr, in_period start_date end_date sr.1) (shifts_join_records db) in
  let groups := Sql.group_by (MiningShift.shift_date ∘ fst) rows in
  let results := Sql.order_by Z.le fst (daily_row <$> groups) in
  daily_entry <$> results.

(** The rows of the outer join for one equipment: one per production record
    attributed to it, or one with NULL record columns when there is none. *)
Definition outerjoin_rows (db : Session) (e : Equipment.t)
  : list (Equipment.t * option ProductionRecord.t) :=
  match filter (λ r, ProductionRecord.equipment_id r = Some (Equipment.id e))
               (production_records db) with
  | [] => [(e, None)]
  | rs => (λ r, (e, Some r)) <$> rs
  end.

(** [Equipment LEFT OUTER JOIN ProductionRecord ON Equipment.id = equipment_id] *)
Definition equipment_outerjoin_records (db : Session)
  : list (Equipment.t * option ProductionRecord.t) :=
  e ← equipment db; outerjoin_rows db e.

(** One result row of the grouped outer join: the equipment's columns, which
    depend on the grouping key [Equipment.id] only, with [COUNT] and [SUM]
    over the joined records. *)
Definition utilization_row (g : Z * list (Equipment.t * option ProductionRecord.t))
  : option (Equipment.t * Z * option Q) :=
  match g.2 with
  | [] => None
  | (e, _) :: _ =>
      Some (e,
            Sql.count
              ((λ er : Equipment.t * option ProductionRecord.t,
                  ProductionRecord.id <$> er.2) <$> g.2),
            Sql.sum
              ((λ er : Equipment.t * option ProductionRecord.t,
                  er.2 ≫= ProductionRecord.ore_extracted_tonnes) <$> g.2))
  end.

(** The dictionary built from a result row. *)
Definition utilization_entry (r : Equipment.t * Z * option Q)
  : EquipmentUtilization.t :=
  let '(e, total_records, total_ore) := r in
  {| EquipmentUtilization.equipment_code := Equipment.equipment_code e;
     EquipmentUtilization.name := Equipment.name e;
     EquipmentUtilization.equipment_type := Equipment.equipment_type e;
     EquipmentUtilization.status := EquipmentStatus_value <$> Equipment.status e;
     EquipmentUtilization.total_production_records :=
       Py.or_int (Some total_records) 0;
     EquipmentUtilization.total_ore_extracted := Py.or_float total_ore 0 |}.

Definition get_equipment_utilization (db : Session)
  : list EquipmentUtilization.t :=
  let groups := Sql.group_by (Equipment.id ∘ fst) (equipment_outerjoin_records db) in
  let results :=
    Sql.order_by_desc (Sql.le_null (bind db) Qle) snd
      (omap utilization_row groups) in
  utilization_entry <$> results.

End MiningService.

(** ** [app/api/analytics.py] *)

Module Analytics.

(** The dictionary returned by the [/summary] route. *)
Record Summary := {
  period_start : Z;
  period_end : Z;
  total_ore_extracted : Q;
  total_waste_removed : Q;
  average_ore_grade : Q;
  total_shifts : Z;
  total_tracked : Z;
  top_performers : list EquipmentUtilization.t;
  pending_maintenance : Z
}.

(** [today] is the value of [date.today()]. *)
Definition get_summary (db : Session) (today : Z) : Summary :=
  let week_ago := (today - 7)%Z in
  let production_stats := MiningService.get_production_stats db week_ago today in
  let equipment_util := MiningService.get_equipment_utilization db in
  let maintenance_logs :=
    MiningService.get_maintenance_logs db 0 5 None (Some false) in
  {| period_start := week_ago;
     period_end := today;
     total_ore_extracted := ProductionStats.total_ore_extracted production_stats;
     total_waste_removed := ProductionStats.total_waste_removed production_stats;
     average_ore_grade := ProductionStats.average_ore_grade production_stats;
     total_shifts := ProductionStats.total_shifts production_stats;
     total_tracked := Z.of_nat (length equipment_util);
     top_performers :=
       match equipment_util with [] => [] | _ => take 5 equipment_util end;
     pending_maintenance := Z.of_nat (length maintenance_logs) |}.

End Analytics.

(** ** Exceptions *)

Inductive exn := ZeroDivisionError | TypeError | IntegrityError.

Definition result (A : Type) : Type := exn + A.
Definition ret {A} (a : A) : result A := inr a.
Definition raise {A} (e : exn) : result A := inl e.
Definition bind_result {A B} (m : result A) (k : A → result B) : result B :=
  match m with
  | inl e => inl e
  | inr a => k a
  end.

Declare Scope result_scope.
Delimit Scope result_scope with result.
Notation "'do' x <- m ; k" := (bind_result m (λ x, k))
  (at level 10, x name, m at level 100, k at level 200) : result_scope.

(** A loop that builds a list and stops at the first exception. *)
Fixpoint for_each {A B} (f : A → result B) (l : list A) : result (list B) :=
  match l with
  | [] => ret []
  | a :: l =>
      (do b <- f a;
       do bs <- for_each f l;
       ret (b :: bs))%result
  end.

(** ** [app/tasks/mining_tasks.py] *)

Module MiningTasks.

(** [x / y] on floats; [None] operands and a zero divisor raise. *)
Definition truediv (x y : option Q) : result Q :=
  match x, y with
  | Some a, Some b =>
      if Qeq_bool b 0 then raise ZeroDivisionError else ret (a / b)%Q
  | _, _ => raise TypeError
  end.

(** [x > 0]; comparing [None] with a number raises. *)
Definition gt_zero (x : option Q) : result bool :=
  match x with
  | Some a => ret (negb (Qle_bool a 0))
  | None => raise TypeError
  end.

Definition truthy (x : option Q) : bool :=
  match x with Some q => Py.truthy_float q | None => false end.

(** Rounding to the nearest integer, ties to the even one. *)
Definition round_half_even (q : Q) : Z :=
  let f := Qfloor q in
  match (q - inject_Z f ?= 1 # 2)%Q with
  | Lt => f
  | Gt => (f + 1)%Z
  | Eq => if Z.even f then f else (f + 1)%Z
  end.

(** [round(q, 2)] *)
Definition round2 (q : Q) : Q :=
  (inject_Z (round_half_even (q * 100)) / 100)%Q.

(** The dictionaries returned by [calculate_equipment_metrics]. *)
Record EquipmentMetrics := {
  equipment_id : Z;
  equipment_code : string;
  name : string;
  status : option string;
  operating_hours : Q;
  total_production_records : Z;
  total_ore_extracted : Q;
  efficiency_tonnes_per_hour : Q
}.

(** The body of the loop over the result rows.  The condition is the
    short-circuit [and] of the source: a conjunct is evaluated only when
    the ones before it are true. *)
Definition metrics_of (r : Equipment.t * Z * option Q) : result EquipmentMetrics :=
  let '(e, total_records, total_ore) := r in
  let operating_hours := Equipment.operating_hours e in
  (do cond <-
     (if truthy operating_hours then
        do positive <- gt_zero operating_hours;
        if positive then ret (truthy total_ore) else ret false
      else ret false);
   do efficiency <-
     (if cond : bool then
        do q <- truediv total_ore operating_hours;
        ret (round2 q)
      else ret 0%Q);
   ret {| equipment_id := Equipment.id e;
          equipment_code := Equipment.equipment_code e;
          name := Equipment.name e;
          status := EquipmentStatus_value <$> Equipment.status e;
          operating_hours := Py.or_float operating_hours 0;
          total_production_records := Py.or_int (Some total_records) 0;
          total_ore_extracted := Py.or_float total_ore 0;
          efficiency_tonnes_per_hour := efficiency |})%result.

(** The rows of the query: per equipment, the number of its production
    records and the SUM of their tonnages (NULL when it has none). *)
Definition results (db : Session) : list (Equipment.t * Z * option Q) :=
  omap MiningService.utilization_row
    (Sql.group_by (Equipment.id ∘ fst)
       (MiningService.equipment_outerjoin_records db)).

Definition calculate_equipment_metrics (db : Session)
  : result (list EquipmentMetrics) :=
  for_each metrics_of (results db).

End MiningTasks.

(** ** The update operations of [app/services/mining.py]

    The four [update_*] functions are one procedure applied to four tables:
    they load the row by primary key, assign the dumped request to it with
    [setattr], one attribute name at a time, and commit.  They reach a row
    through attribute names only, so this part views a row as the dictionary
    of its column attributes. *)

Module Orm.

Inductive value :=
| Null
| Int (z : Z)
| Float (q : Q)
| Str (s : string)
| Bool (b : bool)
| Date (d : Z)
| DateTime (t : Z)
| Enum (tag : string).

Global Instance Q_eq_dec : EqDecision Q.
Proof. solve_decision. Defined.
Global Instance value_eq_dec : EqDecision value.
Proof. solve_decision. Defined.

(** Python [==] on attribute values. *)
Definition value_eqb (v w : value) : bool :=
  match v, w with
  | Null, Null => true
  | Int a, Int b => (a =? b)%Z
  | Float a, Float b => Qeq_bool a b
  | Str a, Str b => String.eqb a b
  | Bool a, Bool b => Bool.eqb a b
  | Date a, Date b => (a =? b)%Z
  | DateTime a, DateTime b => (a =? b)%Z
  | Enum a, Enum b => String.eqb a b
  | _, _ => false
  end.

Definition attr_eqb (v w : option value) : bool :=
  match v, w with
  | Some a, Some b => value_eqb a b
  | None, None => true
  | _, _ => false
  end.

(** A mapped instance and a table of them. *)
Abbreviation instance := (gmap string value).

(** An update request: the fields the client set, with their values.
    [model_dump(exclude_unset=True)] lists the schema's fields that were
    set, in the order of the schema; names outside the schema are not part
    of the model. *)
Definition model_dump (fields : list string) (request : gmap string value)
  : list (string * value) :=
  omap (λ f, (λ v, (f, v)) <$> request !! f) fields.

Definition setattr (obj : instance) (key : string) (v : value) : instance :=
  <[key := v]> obj.

(** An attribute has a net change when its value differs from the loaded one. *)
Definition dirty (loaded obj : instance) (keys : list string) : bool :=
  existsb (λ k, negb (attr_eqb (obj !! k) (loaded !! k))) keys.

(** [db.commit(); db.refresh(obj)].  Without a net change no UPDATE is
    issued.  An UPDATE that leaves NULL in a [nullable=False] column is
    refused by the store; otherwise it stores the instance, with
    [updated_at] set by its [onupdate=datetime.utcnow] to the time [now]. *)
Definition commit (not_null : list string) (now : Z)
    (loaded obj : instance) (keys : list string) : result instance :=
  if dirty loaded obj keys then
    if existsb (λ c, attr_eqb (obj !! c) (Some Null)) not_null
    then raise IntegrityError
    else ret (<["updated_at" := DateTime now]> obj)
  else ret loaded.

(** The body shared by [update_shift], [update_production_record],
    [update_equipment] and [update_maintenance_log]: the returned instance
    ([None] when the id is unknown) and the table afterwards. *)
Definition update (fields not_null : list string) (now : Z)
    (table : list instance) (id : Z) (request : gmap string value)
  : result (option instance * list instance) :=
  match list_find (λ row : instance, row !! "id" = Some (Int id)) table with
  | Some (i, db_row) =>
      let update_data := model_dump fields request in
      let obj := foldl (λ o kv, setattr o kv.1 kv.2) db_row update_data in
      (do stored <- commit not_null now db_row obj (update_data.*1);
       ret (Some stored, <[i := stored]> table))%result
  | None => ret (None, table)
  end.

(** The fields of the update schemas of [app/schemas/mining.py]. *)
Definition MiningShiftUpdate : list string :=
  ["shift_type"; "mine_section"; "workers_count"; "end_time"; "notes"].
Definition ProductionRecordUpdate : list string :=
  ["ore_extracted_tonnes"; "waste_removed_tonnes"; "ore_grade_percentage";
   "depth_meters"; "mining_level"; "stope_number"].
Definition EquipmentUpdate : list string :=
  ["name"; "status"; "current_location"; "assigned_section";
   "operating_hours"; "last_maintenance_date"; "next_maintenance_date"].
Definition MaintenanceLogUpdate : list string :=
  ["description"; "technician_name"; "labor_hours"; "parts_cost";
   "total_cost"; "parts_replaced"; "is_completed"; "completed_date"].

(** The [nullable=False] columns of [app/models/mining.py]. *)
Definition MiningShift_not_null : list string :=
  ["id"; "shift_date"; "shift_type"; "mine_section"; "start_time"].
Definition ProductionRecord_not_null : list string := ["id"; "shift_id"].
Definition Equipment_not_null : list string :=
  ["id"; "equipment_code"; "name"; "equipment_type"].
Definition MaintenanceLog_not_null : list string :=
  ["id"; "equipment_id"; "maintenance_type"; "description"].

Definition update_shift := update MiningShiftUpdate MiningShift_not_null.
Definition update_production_record :=
  update ProductionRecordUpdate ProductionRecord_not_null.
Definition update_equipment := update EquipmentUpdate Equipment_not_null.
Definition update_maintenance_log :=
  update MaintenanceLogUpdate MaintenanceLog_not_null.

(** The table after a call: an exception leaves it as it was. *)
Definition table_after (table : list instance)
    (r : result (option instance * list instance)) : list instance :=
  match r with
  | inr (_, table') => table'
  | inl _ => table
  end.

End Orm.

(** ** Rows for the scenarios *)

Module Scenario.

Definition shift (i date : Z) (workers : option Z) : MiningShift.t :=
  {| MiningShift.id := i; MiningShift.shift_date := date;
     MiningShift.shift_type := DAY; MiningShift.mine_section := "North";
     MiningShift.supervisor_id := None; MiningShift.workers_count := workers;
     MiningShift.start_time := 0; MiningShift.end_time := None;
     MiningShift.notes := None; MiningShift.created_at := Some 0%Z;
     MiningShift.updated_at := Some 0%Z |}.

Definition record (i shift_id : Z) (equipment_id : option Z)
    (ore grade : option Q) : ProductionRecord.t :=
  {| ProductionRecord.id := i; ProductionRecord.shift_id := shift_id;
     ProductionRecord.equipment_id := equipment_id;
     ProductionRecord.ore_extracted_tonnes := ore;
     ProductionRecord.waste_removed_tonnes := Some 0%Q;
     ProductionRecord.ore_grade_percentage := grade;
     ProductionRecord.depth_meters := Some 0%Q;
     ProductionRecord.mining_level := None;
     ProductionRecord.stope_number := None;
     ProductionRecord.contamination_level := Some 0%Q;
     ProductionRecord.moisture_content := Some 0%Q;
     ProductionRecord.recorded_at := Some i;
     ProductionRecord.created_at := Some i;
     ProductionRecord.updated_at := Some i |}.

Definition machine (i : Z) (code : string) (hours : option Q) : Equipment.t :=
  {| Equipment.id := i; Equipment.equipment_code := code;
     Equipment.name := code; Equipment.equipment_type := "drill";
     Equipment.manufacturer := None; Equipment.model := None;
     Equipment.year_manufactured := None;
     Equipment.status := Some OPERATIONAL;
     Equipment.capacity_tonnes := None; Equipment.fuel_type := None;
     Equipment.operating_hours := hours;
     Equipment.current_location := None; Equipment.assigned_section := None;
     Equipment.commissioned_date := None;
     Equipment.last_maintenance_date := None;
     Equipment.next_maintenance_date := None;
     Equipment.created_at := Some 0%Z; Equipment.updated_at := Some 0%Z |}.

Definition log (i equipment_id : Z) (completed : option bool) : MaintenanceLog.t :=
  {| MaintenanceLog.id := i; MaintenanceLog.equipment_id := equipment_id;
     MaintenanceLog.maintenance_type := PREVENTIVE;
     MaintenanceLog.description := "service";
     MaintenanceLog.technician_name := None;
     MaintenanceLog.labor_hours := Some 0%Q;
     MaintenanceLog.parts_cost := Some 0%Q;
     MaintenanceLog.total_cost := Some 0%Q;
     MaintenanceLog.parts_replaced := None;
     MaintenanceLog.is_completed := completed;
     MaintenanceLog.scheduled_date := None;
     MaintenanceLog.completed_date := None;
     MaintenanceLog.created_at := Some i;
     MaintenanceLog.updated_at := Some i |}.

(** Shift 1 on day 10 with two records, shift 2 on day 12 with one; machine
    1 worked on both days, machine 2 never. *)
Definition db1 (engine : Sql.Dialect) : Session :=
  {| bind := engine;
     mining_shifts := [shift 1 10 (Some 40%Z); shift 2 12 (Some 50%Z)];
     production_records :=
       [record 1 1 (Some 1%Z) (Some 10%Q) (Some 2%Q);
        record 2 1 (Some 1%Z) (Some (11 # 2)%Q) (Some 3%Q);
        record 3 2 (Some 1%Z) (Some 10%Q) (Some 4%Q);
        record 4 2 None (Some 1%Q) None];
     equipment := [machine 2 "EQ-2" None; machine 1 "EQ-1" (Some 4%Q)];
     maintenance_logs :=
       [log 1 1 (Some false); log 2 1 (Some true); log 3 1 (Some false);
        log 4 2 (Some false); log 5 2 (Some false); log 6 2 (Some false);
        log 7 2 (Some false)] |}.

(** The shift 1 of [db1] as a mapped instance, last written at time 0. *)
Definition shift_row : gmap string Orm.value :=
  list_to_map
    [("id", Orm.Int 1); ("shift_date", Orm.Date 10);
     ("shift_type", Orm.Enum "day"); ("mine_section", Orm.Str "North");
     ("supervisor_id", Orm.Null); ("workers_count", Orm.Int 40);
     ("start_time", Orm.DateTime 0); ("end_time", Orm.Null);
     ("notes", Orm.Null); ("created_at", Orm.DateTime 0);
     ("updated_at", Orm.DateTime 0)].

(** A request that sets [notes] and nothing else. *)
Definition notes_request : gmap string Orm.value :=
  {[ "notes" := Orm.Str "blasting done" ]}.

End Scenario.

(** ** What the reports are compared with *)

Module Spec.

(** The production records whose parent shift, the shift their [shift_id]
    names, has its date in the period. *)
Definition records_in_period (db : Session) (start_date end_date : Z)
  : list ProductionRecord.t :=
  filter
    (λ r, Exists (λ s, MiningShift.id s = ProductionRecord.shift_id r ∧
                       MiningService.in_period start_date end_date s)
                 (mining_shifts db))
    (production_records db).

(** The production records of the shifts of one date. *)
Definition records_on (db : Session) (date : Z) : list ProductionRecord.t :=
  filter
    (λ r, Exists (λ s, MiningShift.id s = ProductionRecord.shift_id r ∧
                       MiningShift.shift_date s = date)
                 (mining_shifts db))
    (production_records db).

(** The production records attributed to one equipment. *)
Definition records_of (db : Session) (e : Equipment.t) : list ProductionRecord.t :=
  filter (λ r, ProductionRecord.equipment_id r = Some (Equipment.id e))
         (production_records db).

(** The utilization entry of one equipment. *)
Definition utilization_of (db : Session) (e : Equipment.t) : EquipmentUtilization.t :=
  {| EquipmentUtilization.equipment_code := Equipment.equipment_code e;
     EquipmentUtilization.name := Equipment.name e;
     EquipmentUtilization.equipment_type := Equipment.equipment_type e;
     EquipmentUtilization.status := EquipmentStatus_value <$> Equipment.status e;
     EquipmentUtilization.total_production_records :=
       Z.of_nat (length (records_of db e));
     EquipmentUtilization.total_ore_extracted :=
       Py.or_float
         (Sql.sum (ProductionRecord.ore_extracted_tonnes <$> records_of db e)) 0 |}.

(** The maintenance logs whose completion flag is false. *)
Definition incomplete_logs (db : Session) : list MaintenanceLog.t :=
  filter (λ l, MaintenanceLog.is_completed l = Some false) (maintenance_logs db).

(** No recorded tonnage is negative, as the request schemas require
    ([ge=0]). *)
Definition ore_non_negative (db : Session) : Prop :=
  ∀ r q, r ∈ production_records db →
         ProductionRecord.ore_extracted_tonnes r = Some q → (0 <= q)%Q.

(** The dictionary [m] is the one of the result row [r] (the equipment, the
    number of its records, the SUM of their tonnages), with its efficiency
    guarded: the rounded quotient of the row's SUM by the row's
    [operating_hours] when the hours are there and strictly positive and the
    SUM is there and not zero; 0 when the hours are NULL, zero or negative,
    or the SUM is NULL or zero. *)
Definition efficiency_from_row (r : Equipment.t * Z * option Q)
    (m : MiningTasks.EquipmentMetrics) : Prop :=
  let hours := Equipment.operating_hours r.1.1 in
  let total_ore := r.2 in
  MiningTasks.equipment_id m = Equipment.id r.1.1 ∧
  (∀ h o, hours = Some h → total_ore = Some o → (0 < h)%Q → ¬ (o == 0)%Q →
          MiningTasks.efficiency_tonnes_per_hour m = MiningTasks.round2 (o / h)) ∧
  (hours = None ∨ (∃ h, hours = Some h ∧ (h <= 0)%Q) ∨
   total_ore = None ∨ (∃ o, total_ore = Some o ∧ (o == 0)%Q) →
   MiningTasks.efficiency_tonnes_per_hour m = 0%Q).

(** What an update leaves of a row [row]: the row [after] is there and
    agrees with it on every attribute other than [updated_at] that is not a
    field of the schema set in the request. *)
Definition unset_fields_kept (fields : list string)
    (request : gmap string Orm.value) (row : gmap string Orm.value)
    (after : option (gmap string Orm.value)) : Prop :=
  ∃ row',
    after = Some row' ∧
    ∀ k, k ≠ "updated_at" → k ∉ fields ∨ request !! k = None →
         row' !! k = row !! k.

End Spec.

(** ** The other jobs of [app/tasks/mining_tasks.py] *)

Module ScheduledTasks.

(** Comparisons of a nullable column with a value: NULL satisfies none. *)
Definition null_ge (x : option Z) (y : Z) : Prop :=
  match x with Some t => (y ≤ t)%Z | None => False end.
Definition null_le (x : option Z) (y : Z) : Prop :=
  match x with Some t => (t ≤ y)%Z | None => False end.
Definition null_lt (x : option Z) (y : Z) : Prop :=
  match x with Some t => (t < y)%Z | None => False end.

Global Instance null_ge_dec x y : Decision (null_ge x y).
Proof. destruct x; simpl; apply _. Defined.
Global Instance null_le_dec x y : Decision (null_le x y).
Proof. destruct x; simpl; apply _. Defined.
Global Instance null_lt_dec x y : Decision (null_lt x y).
Proof. destruct x; simpl; apply _. Defined.

(** [SUM] of an integer column. *)
Definition sum_int (xs : list (option Z)) : option Z :=
  match Sql.non_null xs with
  | [] => None
  | ys => Some (foldr Z.add 0%Z ys)
  end.

(** The dictionary returned by [generate_daily_report]. *)
Record DailyReport := {
  report_date : Z;
  generated_at : Z;
  total_ore_tonnes : Q;
  total_waste_tonnes : Q;
  average_ore_grade : Q;
  report_production_records : Z;
  total_shifts : Z;
  total_workers : Z;
  equipment_used : Z
}.

(** [today] is [date.today()] and [now] is [datetime.utcnow()]. *)
Definition generate_daily_report (db : Session) (today now : Z) : DailyReport :=
  let yesterday := (today - 1)%Z in
  let rows :=
    filter (λ rs : ProductionRecord.t * MiningShift.t,
              MiningShift.shift_date rs.2 = yesterday)
           (MiningService.records_join_shifts db) in
  let total_ore := Sql.sum ((ProductionRecord.ore_extracted_tonnes ∘ fst) <$> rows) in
  let total_waste := Sql.sum ((ProductionRecord.waste_removed_tonnes ∘ fst) <$> rows) in
  let avg_grade := Sql.avg ((ProductionRecord.ore_grade_percentage ∘ fst) <$> rows) in
  let record_count := Sql.count ((Some ∘ ProductionRecord.id ∘ fst) <$> rows) in
  let shifts :=
    filter (λ s, MiningShift.shift_date s = yesterday) (mining_shifts db) in
  let shift_count := Sql.count ((Some ∘ MiningShift.id) <$> shifts) in
  let workers := sum_int (MiningShift.workers_count <$> shifts) in
  let equipment_count :=
    Sql.count_distinct ((ProductionRecord.equipment_id ∘ fst) <$> rows) in
  {| report_date := yesterday;
     generated_at := now;
     total_ore_tonnes := Py.or_float total_ore 0;
     total_waste_tonnes := Py.or_float total_waste 0;
     average_ore_grade := MiningTasks.round2 (Py.or_float avg_grade 0);
     report_production_records := Py.or_int (Some record_count) 0;
     total_shifts := Py.or_int (Some shift_count) 0;
     total_workers := Py.or_int workers 0;
     equipment_used := Py.or_int (Some equipment_count) 0 |}.

(** [timedelta(hours=1)], the tick of a [datetime] being the second. *)
Definition hour : Z := 3600.

(** The builtin [sum] over floats that may be [None]: it starts from 0 and
    adds from left to right; adding [None] raises. *)
Definition py_sum (xs : list (option Q)) : result Q :=
  foldl (λ acc x,
           (do a <- acc;
            match x with
            | Some q => ret (a + q)%Q
            | None => raise TypeError
            end)%result)
        (ret 0%Q) xs.

(** The dictionary returned by [process_production_data]. *)
Record ProcessingResult := {
  processed_at : Z;
  records_processed : Z;
  total_ore_extracted : Q;
  total_waste_removed : Q
}.

Definition process_production_data (db : Session) (now : Z)
  : result ProcessingResult :=
  let one_hour_ago := (now - hour)%Z in
  let recent_records :=
    filter (λ r, null_ge (ProductionRecord.created_at r) one_hour_ago)
           (production_records db) in
  (do total_ore <-
     py_sum (ProductionRecord.ore_extracted_tonnes <$> recent_records);
   do total_waste <-
     py_sum (ProductionRecord.waste_removed_tonnes <$> recent_records);
   ret {| processed_at := now;
          records_processed := Z.of_nat (length recent_records);
          total_ore_extracted := total_ore;
          total_waste_removed := total_waste |})%result.

(** Calling a method on [None]. *)
Inductive AttributeError := NoneType_has_no_attribute (name : string).

(** [d.isoformat()], a date being shown as its day number. *)
Definition isoformat (d : option Z) : AttributeError + Z :=
  match d with
  | Some z => inr z
  | None => inl (NoneType_has_no_attribute "isoformat")
  end.

(** One entry of [upcoming_maintenance] or [overdue_maintenance]. *)
Record MaintenanceAlert := {
  alert_equipment_code : string;
  alert_name : string;
  alert_date : Z
}.

Definition alert_entry (e : Equipment.t) : AttributeError + MaintenanceAlert :=
  match isoformat (Equipment.next_maintenance_date e) with
  | inr d => inr {| alert_equipment_code := Equipment.equipment_code e;
                    alert_name := Equipment.name e;
                    alert_date := d |}
  | inl err => inl err
  end.

(** A list comprehension whose element expression may raise. *)
Fixpoint alert_entries (l : list Equipment.t)
  : AttributeError + list MaintenanceAlert :=
  match l with
  | [] => inr []
  | e :: l =>
      match alert_entry e with
      | inr a =>
          match alert_entries l with
          | inr rest => inr (a :: rest)
          | inl err => inl err
          end
      | inl err => inl err
      end
  end.

(** The dictionary returned by [send_maintenance_alerts]. *)
Record Alerts := {
  checked_at : Z;
  upcoming_maintenance : list MaintenanceAlert;
  overdue_maintenance : list MaintenanceAlert;
  pending_maintenance_logs : Z
}.

Definition upcoming_equipment (db : Session) (today : Z) : list Equipment.t :=
  filter (λ e, null_ge (Equipment.next_maintenance_date e) today ∧
               null_le (Equipment.next_maintenance_date e) (today + 7) ∧
               Equipment.status e = Some OPERATIONAL)
         (equipment db).

Definition overdue_equipment (db : Session) (today : Z) : list Equipment.t :=
  filter (λ e, null_lt (Equipment.next_maintenance_date e) today ∧
               Equipment.status e = Some OPERATIONAL)
         (equipment db).

Definition send_maintenance_alerts (db : Session) (today now : Z)
  : AttributeError + Alerts :=
  let upcoming := upcoming_equipment db today in
  let overdue := overdue_equipment db today in
  let pending_logs :=
    Z.of_nat (length (filter (λ l, MaintenanceLog.is_completed l = Some false)
                             (maintenance_logs db))) in
  match alert_entries upcoming with
  | inr upcoming_alerts =>
      match alert_entries overdue with
      | inr overdue_alerts =>
          inr {| checked_at := now;
                 upcoming_maintenance := upcoming_alerts;
                 overdue_maintenance := overdue_alerts;
                 pending_maintenance_logs := pending_logs |}
      | inl err => inl err
      end
  | inl err => inl err
  end.



End ScheduledTasks.

(** ** [app/api/deps.py]

    The users are the rows of the [users] table of [app/models/user.py];
    [jwt_decode] stands for [jwt.decode] with the configured key: the claims
    of a token it accepts, [None] where it raises [JWTError]. *)

Module User.
Record t := mk {
  id : Z;
  email : string;
  hashed_password : string;
  first_name : string;
  last_name : string;
  role : option string;
  is_active : option bool;
  created_at : option Z;
  updated_at : option Z
}.
End User.

Module Deps.

(** [HTTPException(status_code, detail)] *)
Record HTTPException := {
  status_code : Z;
  detail : string
}.

(** [TokenData] of [app/schemas/user.py]. *)
Record TokenData := {
  token_email : option string;
  token_user_id : option Z
}.

(** The claims [sub] and [user_id] of a decoded token. *)
Record Payload := {
  sub : option string;
  user_id : option Z
}.

Definition credentials_exception : HTTPException :=
  {| status_code := 401; detail := "Could not validate credentials" |}.

(** [AuthService.verify_token] *)
Definition verify_token (jwt_decode : string → option Payload) (token : string)
  : option TokenData :=
  match jwt_decode token with
  | Some payload =>
      match sub payload with
      | None => None
      | Some email =>
          Some {| token_email := Some email; token_user_id := user_id payload |}
      end
  | None => None
  end.

(** [AuthService.get_user_by_email]; an email of [None] matches no row. *)
Definition get_user_by_email (users : list User.t) (email : option string)
  : option User.t :=
  snd <$> list_find (λ u, Some (User.email u) = email) users.

Definition get_current_user (jwt_decode : string → option Payload)
    (users : list User.t) (token : string) : HTTPException + User.t :=
  match verify_token jwt_decode token with
  | None => inl credentials_exception
  | Some token_data =>
      match get_user_by_email users (token_email token_data) with
      | None => inl credentials_exception
      | Some user => inr user
      end
  end.

(** [not current_user.is_active]: a NULL flag counts as inactive. *)
Definition get_current_active_user (current_user : HTTPException + User.t)
  : HTTPException + User.t :=
  match current_user with
  | inl e => inl e
  | inr user =>
      match User.is_active user with
      | Some true => inr user
      | _ => inl {| status_code := 400; detail := "Inactive user" |}
      end
  end.

Definition get_current_admin_user (current_user : HTTPException + User.t)
  : HTTPException + User.t :=
  match current_user with
  | inl e => inl e
  | inr user =>
      if decide (User.role user = Some "admin") then inr user
      else inl {| status_code := 403; detail := "Not enough permissions" |}
  end.

(** The dependency chain FastAPI resolves for an admin route. *)
Definition admin_user (jwt_decode : string → option Payload)
    (users : list User.t) (token : string) : HTTPException + User.t :=
  get_current_admin_user
    (get_current_active_user (get_current_user jwt_decode users token)).

End Deps.

(** ** What further properties are stated with *)

Module Behaviour.

(** The production records a call of [get_production_records] asks for: the
    ones that carry every non-zero id given. *)
Definition record_selected (shift_id equipment_id : option Z)
    (r : ProductionRecord.t) : Prop :=
  (∀ s, shift_id = Some s → s ≠ 0%Z → ProductionRecord.shift_id r = s) ∧
  (∀ e, equipment_id = Some e → e ≠ 0%Z → ProductionRecord.equipment_id r = Some e).

(** The all-zero report of a period. *)
Definition empty_stats (start_date end_date : Z) : ProductionStats.t :=
  {| ProductionStats.total_ore_extracted := 0;
     ProductionStats.total_waste_removed := 0;
     ProductionStats.average_ore_grade := 0;
     ProductionStats.total_shifts := 0;
     ProductionStats.average_workers_per_shift := 0;
     ProductionStats.period_start := start_date;
     ProductionStats.period_end := end_date |}.


End Behaviour.

(** * Properties *)

(** ** Lists, aggregates and Python's [or] *)

Section ListFacts.
Context {A B : Type}.

Lemma filter_none (P : A → Prop) `{∀ x, Decision (P x)} (l : list A) :
  (∀ x, x ∈ l → ¬ P x) → filter P l = [].
Proof.
  induction l as [|a l IH]; intros Hl; [done|].
  rewrite filter_cons_False by (apply Hl; left).
  apply IH. intros x Hx. apply Hl. by right.
Qed.

Lemma filter_all (P : A → Prop) `{∀ x, Decision (P x)} (l : list A) :
  (∀ x, x ∈ l → P x) → filter P l = l.
Proof.
  induction l as [|a l IH]; intros Hl; [done|].
  rewrite filter_cons_True by (apply Hl; left).
  f_equal. apply IH. intros x Hx. apply Hl. by right.
Qed.

Lemma filter_bind (P : B → Prop) `{∀ x, Decision (P x)}
    (f : A → list B) (l : list A) :
  filter P (l ≫= f) = l ≫= (λ a, filter P (f a)).
Proof.
  induction l as [|a l IH]; [done|].
  cbn. by rewrite filter_app, IH.
Qed.

Lemma fmap_bind_list {C} (g : B → C) (f : A → list B) (l : list A) :
  g <$> (l ≫= f) = l ≫= (λ a, g <$> f a).
Proof.
  induction l as [|a l IH]; [done|].
  cbn. by rewrite fmap_app, IH.
Qed.

Lemma bind_singleton_or_nil (P : A → Prop) `{∀ x, Decision (P x)} (l : list A) :
  l ≫= (λ a, if decide (P a) then [a] else []) = filter P l.
Proof.
  induction l as [|a l IH]; [done|].
  rewrite filter_cons, <-IH. cbn. by destruct (decide (P a)).
Qed.

End ListFacts.

Lemma or_float_sum (xs : list (option Q)) :
  (Py.or_float (Sql.sum xs) 0 == Sql.Qsum (Sql.non_null xs))%Q.
Proof.
  unfold Sql.sum. destruct (Sql.non_null xs) as [|y ys] eqn:E; [reflexivity|].
  unfold Py.or_float, Py.truthy_float.
  destruct (Qeq_bool (Sql.Qsum (y :: ys)) 0) eqn:Hz; simpl negb; cbv iota.
  - symmetry. by apply Qeq_bool_eq.
  - reflexivity.
Qed.

Lemma or_int_id (z : Z) : Py.or_int (Some z) 0 = z.
Proof.
  unfold Py.or_int, Py.truthy_int.
  destruct (Z.eqb_spec z 0) as [->|]; reflexivity.
Qed.

(** ** Period Production Statistics *)

Section ProductionStatsFacts.
Import MiningService.

Lemma elem_of_records_join_shifts db r s :
  (r, s) ∈ records_join_shifts db ↔
  r ∈ production_records db ∧ s ∈ mining_shifts db ∧
  ProductionRecord.shift_id r = MiningShift.id s.
Proof.
  unfold records_join_shifts. rewrite list_elem_of_bind. split.
  - intros (r' & Hin & Hr'). apply list_elem_of_bind in Hin as (s' & Hin & Hs').
    destruct (decide _) as [Heq|]; [|by apply elem_of_nil in Hin].
    apply list_elem_of_singleton in Hin. by simplify_eq.
  - intros (Hr & Hs & Heq). exists r. split; [|done].
    apply list_elem_of_bind. exists s. split; [|done].
    rewrite decide_True by done. by apply list_elem_of_singleton.
Qed.

(** With unique shift ids a record joins the one shift it names, if any. *)
Lemma joined_shift_unique (r : ProductionRecord.t)
    (P : MiningShift.t → Prop) `{∀ s, Decision (P s)}
    (shifts : list MiningShift.t) :
  NoDup (MiningShift.id <$> shifts) →
  fst <$> filter (λ rs : ProductionRecord.t * MiningShift.t, P rs.2)
    (shifts ≫= λ s,
       if decide (ProductionRecord.shift_id r = MiningShift.id s)
       then [(r, s)] else [])
  = if decide (Exists (λ s, MiningShift.id s = ProductionRecord.shift_id r ∧ P s)
                      shifts)
    then [r] else [].
Proof.
  induction shifts as [|s ss IH]; intros Hnd.
  - cbn. destruct (decide _) as [Hex|]; [by inversion Hex|done].
  - rewrite fmap_cons in Hnd. apply NoDup_cons in Hnd as [Hs Hnd].
    specialize (IH Hnd). cbn [mbind list_bind].
    rewrite filter_app, fmap_app, IH. clear IH.
    destruct (decide (ProductionRecord.shift_id r = MiningShift.id s)) as [Heq|Hne].
    + assert (¬ Exists (λ s0, MiningShift.id s0 = ProductionRecord.shift_id r ∧ P s0) ss)
        as Hno.
      { rewrite Exists_exists. intros (s' & Hin & Hid & _).
        apply Hs. rewrite <-Heq, <-Hid. by apply list_elem_of_fmap_2. }
      rewrite (decide_False _ _ Hno), app_nil_r.
      rewrite filter_cons, filter_nil. cbn [snd].
      destruct (decide (P s)) as [HP|HP].
      * rewrite decide_True; [done|]. by left.
      * rewrite decide_False; [done|].
        rewrite Exists_cons. intros [[_ ?]|?]; done.
    + rewrite filter_nil. cbn [fmap list_fmap app].
      apply decide_ext. rewrite Exists_cons. split; [by right|].
      intros [[Hid _]|Hex]; [by symmetry in Hid|done].
Qed.

Lemma joined_records_in_period db start_date end_date :
  shift_ids_unique db →
  fst <$> filter (λ rs, in_period start_date end_date rs.2) (records_join_shifts db)
  = Spec.records_in_period db start_date end_date.
Proof.
  intros Hnd. unfold records_join_shifts, Spec.records_in_period.
  rewrite filter_bind, fmap_bind_list.
  rewrite <-bind_singleton_or_nil.
  apply list_bind_ext; [|done]. intros r.
  by apply (joined_shift_unique r (in_period start_date end_date)).
Qed.

Lemma no_shift_no_joined_row db start_date end_date :
  (∀ s, s ∈ mining_shifts db → ¬ in_period start_date end_date s) →
  filter (λ rs, in_period start_date end_date rs.2) (records_join_shifts db) = [].
Proof.
  intros Hno. apply filter_none. intros [r s] Hin.
  apply elem_of_records_join_shifts in Hin as (_ & Hs & _).
  by apply Hno.
Qed.

End ProductionStatsFacts.

(** C1. With the shift ids unique, as the primary key makes them, the
    [total_ore_extracted] of Period Production Statistics is the sum of
    [ore_extracted_tonnes] over exactly the production records whose parent
    shift's date lies in [[start_date, end_date]], both ends included; every
    other record adds nothing. *)
Theorem total_ore_extracted_sums_period (db : Session) (start_date end_date : Z) :
  shift_ids_unique db →
  (ProductionStats.total_ore_extracted
     (MiningService.get_production_stats db start_date end_date)
   == Sql.Qsum (Sql.non_null
        (ProductionRecord.ore_extracted_tonnes <$>
           Spec.records_in_period db start_date end_date)))%Q.
Proof.
  intros Hnd. unfold MiningService.get_production_stats.
  cbn [ProductionStats.total_ore_extracted].
  rewrite or_float_sum, list_fmap_compose.
  by rewrite joined_records_in_period.
Qed.

(** C4. When no shift has its date in the period, and so no production record
    is joined to one, Period Production Statistics returns zero in every
    numeric field and echoes the period; the function is total, so no error
    is raised. *)
Theorem production_stats_empty_period (db : Session) (start_date end_date : Z) :
  (∀ s, s ∈ mining_shifts db → ¬ MiningService.in_period start_date end_date s) →
  MiningService.get_production_stats db start_date end_date =
  {| ProductionStats.total_ore_extracted := 0;
     ProductionStats.total_waste_removed := 0;
     ProductionStats.average_ore_grade := 0;
     ProductionStats.total_shifts := 0;
     ProductionStats.average_workers_per_shift := 0;
     ProductionStats.period_start := start_date;
     ProductionStats.period_end := end_date |}.
Proof.
  intros Hno. unfold MiningService.get_production_stats.
  rewrite (no_shift_no_joined_row _ _ _ Hno).
  rewrite (filter_none _ _ Hno).
  reflexivity.
Qed.

(** ** Grouping and ordering *)

Section OrderFacts.
Context {A K : Type} (le : relation K) `{∀ x y, Decision (le x y)}.
Context `{!Total le, !Transitive le}.

Lemma order_by_Permutation (key : A → K) (rows : list A) :
  Sql.order_by le key rows ≡ₚ rows.
Proof. apply merge_sort_Permutation. Qed.

Lemma order_by_desc_Permutation (key : A → K) (rows : list A) :
  Sql.order_by_desc le key rows ≡ₚ rows.
Proof. apply merge_sort_Permutation. Qed.

Lemma order_by_sorted (key : A → K) (rows : list A) :
  StronglySorted le (key <$> Sql.order_by le key rows).
Proof.
  apply (StronglySorted_fmap key (λ a b, le (key a) (key b))); [done|].
  apply StronglySorted_merge_sort.
  - intros a b c. apply transitivity.
  - intros a b. apply total; apply _.
Qed.

End OrderFacts.

Section GroupFacts.
Context {A : Type} `{EqDecision K} (key : A → K).

Lemma group_by_keys (rows : list A) :
  (Sql.group_by key rows).*1 = remove_dups (key <$> rows).
Proof.
  unfold Sql.group_by. rewrite <-list_fmap_compose.
  rewrite <-(list_fmap_id (remove_dups _)) at 2. by apply list_fmap_ext.
Qed.

Lemma group_by_keys_NoDup (rows : list A) : NoDup (Sql.group_by key rows).*1.
Proof. rewrite group_by_keys. apply NoDup_remove_dups. Qed.

Lemma elem_of_group_by (rows : list A) (g : K * list A) :
  g ∈ Sql.group_by key rows ↔
  (∃ a, a ∈ rows ∧ key a = g.1) ∧ g.2 = filter (λ a, key a = g.1) rows.
Proof.
  unfold Sql.group_by. rewrite list_elem_of_fmap. split.
  - intros (k & -> & Hk). apply elem_of_remove_dups, list_elem_of_fmap in Hk
      as (a & -> & Ha). eauto.
  - intros [(a & Ha & Hk) Hg]. exists g.1. split.
    + destruct g as [k l]. cbn in *. by rewrite Hg.
    + apply elem_of_remove_dups, list_elem_of_fmap. eauto.
Qed.

End GroupFacts.

Lemma StronglySorted_le_NoDup_lt (l : list Z) :
  StronglySorted Z.le l → NoDup l → StronglySorted Z.lt l.
Proof.
  induction 1 as [|x l Hl IH Hx]; intros Hnd; [constructor|].
  apply NoDup_cons in Hnd as [Hnotin Hnd].
  constructor; [by apply IH|].
  rewrite Forall_forall in Hx |- *. intros y Hy.
  assert (x ≠ y) by (intros ->; done).
  specialize (Hx y Hy). lia.
Qed.

Lemma length_remove_dups_size `{Countable T} (l : list T) :
  length (remove_dups l) = size (list_to_set l : gset T).
Proof.
  rewrite <-(size_list_to_set (C:=gset T) (remove_dups l))
    by apply NoDup_remove_dups.
  f_equal. apply set_eq. intros x.
  by rewrite !elem_of_list_to_set, elem_of_remove_dups.
Qed.

Lemma elem_of_non_null_fmap {A B} (f : A → option B) (l : list A) (b : B) :
  b ∈ Sql.non_null (f <$> l) ↔ ∃ a, a ∈ l ∧ f a = Some b.
Proof.
  unfold Sql.non_null. rewrite list_elem_of_omap. split.
  - intros (o & Ho & Hb). apply list_elem_of_fmap in Ho as (a & -> & Ha). eauto.
  - intros (a & Ha & Hb). exists (f a). split; [|done].
    by apply list_elem_of_fmap_2.
Qed.

(** ** Daily Production Rollup *)

Section DailyProductionFacts.
Import MiningService.

Lemma elem_of_shifts_join_records db s r :
  (s, r) ∈ shifts_join_records db ↔
  s ∈ mining_shifts db ∧ r ∈ production_records db ∧
  MiningShift.id s = ProductionRecord.shift_id r.
Proof.
  unfold shifts_join_records. rewrite list_elem_of_bind. split.
  - intros (s' & Hin & Hs'). apply list_elem_of_bind in Hin as (r' & Hin & Hr').
    destruct (decide _) as [Heq|]; [|by apply elem_of_nil in Hin].
    apply list_elem_of_singleton in Hin. by simplify_eq.
  - intros (Hs & Hr & Heq). exists s. split; [|done].
    apply list_elem_of_bind. exists r. split; [|done].
    rewrite decide_True by done. by apply list_elem_of_singleton.
Qed.

Lemma daily_entry_date r : DailyProduction.date (daily_entry r) = r.1.
Proof. by destruct r as [d [[[??]?]?]]. Qed.

Lemma daily_entry_equipment_used r :
  DailyProduction.equipment_used (daily_entry r) = r.2.2.
Proof. destruct r as [d [[[??]?]?]]. cbn. apply or_int_id. Qed.

(** The dates of the rollup are the group keys, in ascending order. *)
Lemma daily_production_dates db start_date end_date :
  DailyProduction.date <$> get_daily_production db start_date end_date =
  fst <$> Sql.order_by Z.le fst
    (daily_row <$>
       Sql.group_by (MiningShift.shift_date ∘ fst)
         (filter (λ sr, in_period start_date end_date sr.1)
                 (shifts_join_records db))).
Proof.
  unfold get_daily_production. rewrite <-list_fmap_compose.
  apply list_fmap_ext. intros i r _. apply daily_entry_date.
Qed.

(** Every entry of the rollup comes from one group of the joined rows. *)
Lemma elem_of_daily_production db start_date end_date e :
  e ∈ get_daily_production db start_date end_date →
  ∃ g, e = daily_entry (daily_row g) ∧
       g ∈ Sql.group_by (MiningShift.shift_date ∘ fst)
             (filter (λ sr, in_period start_date end_date sr.1)
                     (shifts_join_records db)).
Proof.
  unfold get_daily_production. intros He.
  apply list_elem_of_fmap in He as (r & -> & Hr).
  rewrite order_by_Permutation in Hr.
  apply list_elem_of_fmap in Hr as (g & -> & Hg). eauto.
Qed.

End DailyProductionFacts.

(** C6. Daily Production Rollup never returns two entries with the same date,
    and its entries are in strictly ascending order of date. *)
Theorem daily_production_dates_strictly_ascending
    (db : Session) (start_date end_date : Z) :
  NoDup (DailyProduction.date <$>
           MiningService.get_daily_production db start_date end_date) ∧
  StronglySorted Z.lt
    (DailyProduction.date <$>
       MiningService.get_daily_production db start_date end_date).
Proof.
  rewrite daily_production_dates.
  assert (NoDup (fst <$> Sql.order_by Z.le fst
            (MiningService.daily_row <$>
               Sql.group_by (MiningShift.shift_date ∘ fst)
                 (filter (λ sr, MiningService.in_period start_date end_date sr.1)
                         (MiningService.shifts_join_records db))))) as Hnd.
  { rewrite order_by_Permutation, <-list_fmap_compose.
    apply group_by_keys_NoDup. }
  split; [done|].
  apply StronglySorted_le_NoDup_lt; [|done].
  apply (order_by_sorted Z.le).
Qed.

(** C7. In every entry of the Daily Production Rollup, [equipment_used] is the
    number of distinct non-null equipment ids among the production records of
    that date's shifts: an id is counted once however many records carry it,
    and a record without equipment id adds nothing. *)
Theorem daily_equipment_used_counts_distinct
    (db : Session) (start_date end_date : Z) :
  Forall
    (λ e, DailyProduction.equipment_used e =
          Z.of_nat (size (list_to_set
            (Sql.non_null
               (ProductionRecord.equipment_id <$>
                  Spec.records_on db (DailyProduction.date e))) : gset Z)))
    (MiningService.get_daily_production db start_date end_date).
Proof.
  apply Forall_forall. intros e He.
  apply elem_of_daily_production in He as (g & -> & Hg).
  rewrite daily_entry_equipment_used, daily_entry_date.
  apply elem_of_group_by in Hg as [(sr0 & Hsr0 & Hkey) Hrows].
  apply list_elem_of_filter in Hsr0 as [Hperiod _].
  destruct g as [date rows]. cbn in *. subst rows.
  unfold Sql.count_distinct. rewrite length_remove_dups_size.
  do 2 f_equal. apply set_eq. intros x.
  rewrite !elem_of_list_to_set, !elem_of_non_null_fmap. split.
  - intros ([s r] & Hin & Hx). cbn in Hx.
    apply list_elem_of_filter in Hin as [Hdate Hin].
    apply list_elem_of_filter in Hin as [_ Hin].
    apply elem_of_shifts_join_records in Hin as (Hs & Hr & Hid).
    exists r. split; [|done].
    apply list_elem_of_filter. split; [|done].
    apply Exists_exists. exists s. cbn in Hdate. done.
  - intros (r & Hin & Hx).
    apply list_elem_of_filter in Hin as [Hex Hr].
    apply Exists_exists in Hex as (s & Hs & Hid & Hdate).
    exists (s, r). split; [|done].
    apply list_elem_of_filter. split; [done|].
    apply list_elem_of_filter. split.
    + unfold MiningService.in_period in *. cbn in *. lia.
    + by apply elem_of_shifts_join_records.
Qed.

(** ** Grouping a join by the key of its left table *)

Section GroupJoinFacts.
Context {A B : Type} `{EqDecision K}.
Context (k : A → K) (key : B → K) (f : A → list B).
Hypothesis f_key : ∀ a b, b ∈ f a → key b = k a.
Hypothesis f_nonempty : ∀ a, f a ≠ [].

Lemma remove_dups_block (c : K) (xs ys : list K) :
  xs ≠ [] → (∀ x, x ∈ xs → x = c) → c ∉ ys →
  remove_dups (xs ++ ys) = c :: remove_dups ys.
Proof.
  intros Hne Hxs Hc. induction xs as [|x xs IH]; [done|].
  assert (x = c) as -> by (apply Hxs; left).
  destruct xs as [|x' xs].
  - cbn [app remove_dups]. by destruct (decide_rel (∈) c ys).
  - cbn [app remove_dups].
    assert (x' = c) as -> by (apply Hxs; right; left).
    destruct (decide_rel (∈) c (c :: xs ++ ys)) as [_|Hnotin].
    + apply IH; [done|]. intros y Hy. apply Hxs. by right.
    + exfalso. apply Hnotin. left.
Qed.

Lemma elem_of_bind_keys (l : list A) (x : K) :
  x ∈ key <$> (l ≫= f) → x ∈ k <$> l.
Proof.
  intros Hx. apply list_elem_of_fmap in Hx as (b & -> & Hb).
  apply list_elem_of_bind in Hb as (a & Hb & Ha).
  rewrite (f_key a b Hb). by apply list_elem_of_fmap_2.
Qed.

Lemma join_keys (l : list A) :
  NoDup (k <$> l) → remove_dups (key <$> (l ≫= f)) = k <$> l.
Proof.
  induction l as [|a l IH]; [done|].
  rewrite fmap_cons. intros [Ha Hnd]%NoDup_cons.
  cbn [mbind list_bind]. rewrite fmap_app.
  rewrite (remove_dups_block (k a)).
  - by rewrite IH.
  - intros Hnil. apply fmap_nil_inv in Hnil. by apply (f_nonempty a).
  - intros x (b & -> & Hb)%list_elem_of_fmap. by apply f_key.
  - intros Hin. by apply Ha, elem_of_bind_keys.
Qed.

Lemma join_group (l : list A) (a : A) :
  NoDup (k <$> l) → a ∈ l →
  filter (λ b, key b = k a) (l ≫= f) = f a.
Proof.
  induction l as [|a0 l IH]; intros Hnd Ha; [by apply elem_of_nil in Ha|].
  rewrite fmap_cons in Hnd. apply NoDup_cons in Hnd as [Ha0 Hnd].
  cbn [mbind list_bind]. rewrite filter_app.
  apply elem_of_cons in Ha as [->|Ha].
  - rewrite filter_all by (intros b Hb; by apply f_key).
    rewrite filter_none; [by rewrite app_nil_r|].
    intros b Hb Hkey. apply Ha0. rewrite <-Hkey.
    apply elem_of_bind_keys. by apply list_elem_of_fmap_2.
  - rewrite filter_none, IH; [done..|].
    intros b Hb Hkey. apply Ha0.
    rewrite <-(f_key a0 b Hb), Hkey. by apply list_elem_of_fmap_2.
Qed.

(** With the left keys unique, the groups are the blocks of the join. *)
Lemma group_by_join (l : list A) :
  NoDup (k <$> l) →
  Sql.group_by key (l ≫= f) = (λ a, (k a, f a)) <$> l.
Proof.
  intros Hnd. unfold Sql.group_by. rewrite join_keys by done.
  rewrite <-list_fmap_compose. apply list_fmap_ext. intros i a Hi. cbn.
  f_equal. apply join_group; [done|]. by eapply list_elem_of_lookup_2.
Qed.

End GroupJoinFacts.

(** ** Equipment Utilization *)

Section UtilizationFacts.
Import MiningService.

Lemma outerjoin_rows_records_of db e :
  outerjoin_rows db e =
  match Spec.records_of db e with
  | [] => [(e, None)]
  | rs => (λ r, (e, Some r)) <$> rs
  end.
Proof. done. Qed.

Lemma outerjoin_rows_equipment db e er : er ∈ outerjoin_rows db e → er.1 = e.
Proof.
  rewrite outerjoin_rows_records_of. destruct (Spec.records_of db e) as [|r rs].
  - by intros ->%list_elem_of_singleton.
  - by intros (r' & -> & _)%list_elem_of_fmap.
Qed.

Lemma outerjoin_rows_nonempty db e : outerjoin_rows db e ≠ [].
Proof. rewrite outerjoin_rows_records_of. by destruct (Spec.records_of db e). Qed.

Lemma utilization_row_joined db e :
  utilization_row (Equipment.id e, outerjoin_rows db e) =
  Some (e, Z.of_nat (length (Spec.records_of db e)),
        Sql.sum (ProductionRecord.ore_extracted_tonnes <$> Spec.records_of db e)).
Proof.
  assert (∀ l : list ProductionRecord.t,
    (λ er : Equipment.t * option ProductionRecord.t,
       er.2 ≫= ProductionRecord.ore_extracted_tonnes) <$>
      ((λ r, (e, Some r)) <$> l)
    = ProductionRecord.ore_extracted_tonnes <$> l) as Hsum.
  { intros l. by rewrite <-list_fmap_compose. }
  assert (∀ l : list ProductionRecord.t,
    Sql.count
      ((λ er : Equipment.t * option ProductionRecord.t,
          ProductionRecord.id <$> er.2) <$> ((λ r, (e, Some r)) <$> l))
    = Z.of_nat (length l)) as Hcount.
  { intros l. unfold Sql.count, Sql.non_null. f_equal.
    induction l as [|r l IH]; cbn; [done|]. by f_equal. }
  rewrite outerjoin_rows_records_of. unfold utilization_row. cbn [snd].
  destruct (Spec.records_of db e) as [|r rs]; [done|].
  rewrite Hsum, Hcount. done.
Qed.

(** The result rows before ordering, one per equipment. *)
Lemma utilization_groups db :
  equipment_ids_unique db →
  omap utilization_row
    (Sql.group_by (Equipment.id ∘ fst) (equipment_outerjoin_records db))
  = (λ e, (e, Z.of_nat (length (Spec.records_of db e)),
           Sql.sum (ProductionRecord.ore_extracted_tonnes <$> Spec.records_of db e)))
      <$> equipment db.
Proof.
  intros Hnd.
  change (equipment_outerjoin_records db) with (equipment db ≫= outerjoin_rows db).
  rewrite (group_by_join Equipment.id (Equipment.id ∘ fst) (outerjoin_rows db)).
  - induction (equipment db) as [|e l IH]; [done|].
    cbn [fmap list_fmap omap list_omap]. by rewrite utilization_row_joined, IH.
  - intros e er Her. cbn. by rewrite (outerjoin_rows_equipment db e er).
  - apply outerjoin_rows_nonempty.
  - done.
Qed.

Lemma utilization_entry_of db e :
  utilization_entry
    (e, Z.of_nat (length (Spec.records_of db e)),
     Sql.sum (ProductionRecord.ore_extracted_tonnes <$> Spec.records_of db e))
  = Spec.utilization_of db e.
Proof. unfold utilization_entry, Spec.utilization_of. by rewrite or_int_id. Qed.

End UtilizationFacts.

(** C5. With the equipment ids unique, as the primary key makes them,
    Equipment Utilization returns the entries of the equipment rows, one for
    each row and nothing else; an equipment without production records has
    its entry in the report with [total_production_records = 0] and
    [total_ore_extracted = 0]. *)
Theorem equipment_utilization_one_entry_each (db : Session) :
  equipment_ids_unique db →
  MiningService.get_equipment_utilization db ≡ₚ
    Spec.utilization_of db <$> equipment db ∧
  ∀ e, e ∈ equipment db → Spec.records_of db e = [] →
       ∃ u, u ∈ MiningService.get_equipment_utilization db ∧
            EquipmentUtilization.equipment_code u = Equipment.equipment_code e ∧
            EquipmentUtilization.total_production_records u = 0%Z ∧
            EquipmentUtilization.total_ore_extracted u = 0%Q.
Proof.
  intros Hnd.
  assert (MiningService.get_equipment_utilization db ≡ₚ
            Spec.utilization_of db <$> equipment db) as Hperm.
  { unfold MiningService.get_equipment_utilization.
    rewrite order_by_desc_Permutation, utilization_groups by done.
    rewrite <-list_fmap_compose.
    erewrite list_fmap_ext; [done|]. intros i e _. apply utilization_entry_of. }
  split; [done|]. intros e He Hno. exists (Spec.utilization_of db e).
  split; [rewrite Hperm; by apply list_elem_of_fmap_2|].
  unfold Spec.utilization_of. cbn. by rewrite Hno.
Qed.

(** ** Ordering of Equipment Utilization *)

Global Instance Qle_total : Total Qle.
Proof. intros x y. destruct (Qlt_le_dec x y); [left; by apply Qlt_le_weak|by right]. Qed.

Global Instance Qle_transitive : Transitive Qle.
Proof. intros x y z. apply Qle_trans. Qed.

Global Instance le_null_total {A} d (le : relation A) `{!Total le} :
  Total (Sql.le_null d le).
Proof.
  intros [a|] [b|]; cbn; [apply total; apply _|..]; destruct d; auto.
Qed.

Global Instance le_null_transitive {A} d (le : relation A) `{!Transitive le} :
  Transitive (Sql.le_null d le).
Proof.
  intros [a|] [b|] [c|]; cbn; try done; try congruence.
  apply transitivity.
Qed.

Lemma StronglySorted_fmap_elem {A B} (f : A → B)
    (R1 : relation A) (R2 : relation B) (l : list A) :
  (∀ x y, x ∈ l → y ∈ l → R1 x y → R2 (f x) (f y)) →
  StronglySorted R1 l → StronglySorted R2 (f <$> l).
Proof.
  intros Hf Hl. induction Hl as [|x l Hl IH Hx]; csimpl; constructor.
  - apply IH. intros y z Hy Hz. apply Hf; by right.
  - rewrite Forall_fmap. rewrite Forall_forall in Hx |- *.
    intros y Hy. cbn. apply Hf; [left|by right|by apply Hx].
Qed.

Lemma Qsum_nonneg (xs : list Q) : Forall (Qle 0) xs → (0 <= Sql.Qsum xs)%Q.
Proof.
  induction 1 as [|x xs Hx _ IH]; cbn; [apply Qle_refl|].
  replace 0%Q with (0 + 0)%Q by done. by apply Qplus_le_compat.
Qed.

Lemma sum_nonneg (xs : list (option Q)) (q : Q) :
  (∀ x, Some x ∈ xs → (0 <= x)%Q) → Sql.sum xs = Some q → (0 <= q)%Q.
Proof.
  intros Hxs. unfold Sql.sum.
  destruct (Sql.non_null xs) as [|y ys] eqn:E; [done|].
  intros [= <-]. apply (Qsum_nonneg (y :: ys)). rewrite <-E. apply Forall_forall.
  intros x Hx. apply Hxs. unfold Sql.non_null in Hx.
  apply list_elem_of_omap in Hx as (o & Ho & Hox). cbn in Hox. by subst o.
Qed.

Lemma or_float_some (q : Q) : (Py.or_float (Some q) 0 == q)%Q.
Proof.
  unfold Py.or_float, Py.truthy_float.
  destruct (Qeq_bool q 0) eqn:E; cbn; [|reflexivity].
  symmetry. by apply Qeq_bool_eq.
Qed.

Section UtilizationOrder.
Import MiningService.

Lemma utilization_row_sum g row :
  utilization_row g = Some row →
  row.2 = Sql.sum ((λ er : Equipment.t * option ProductionRecord.t,
                      er.2 ≫= ProductionRecord.ore_extracted_tonnes) <$> g.2).
Proof.
  unfold utilization_row. destruct (g.2) as [|[e o] rest]; [done|].
  by intros [= <-].
Qed.

Lemma utilization_row_sum_nonneg db g row q :
  Spec.ore_non_negative db →
  g ∈ Sql.group_by (Equipment.id ∘ fst) (equipment_outerjoin_records db) →
  utilization_row g = Some row → row.2 = Some q → (0 <= q)%Q.
Proof.
  intros Hore Hg Hrow Hq. rewrite (utilization_row_sum g row Hrow) in Hq.
  apply elem_of_group_by in Hg as [_ Hrows].
  apply sum_nonneg in Hq; [done|].
  intros x Hx. apply list_elem_of_fmap in Hx as ([e' [r|]] & Hx & Hin); [|done].
  cbn in Hx. rewrite Hrows in Hin.
  apply list_elem_of_filter in Hin as [_ Hin].
  unfold equipment_outerjoin_records in Hin.
  apply list_elem_of_bind in Hin as (e0 & Hin & _).
  rewrite outerjoin_rows_records_of in Hin.
  destruct (Spec.records_of db e0) as [|r0 rs] eqn:Ef.
  { by apply list_elem_of_singleton in Hin. }
  rewrite <-Ef in Hin. apply list_elem_of_fmap in Hin as (r' & [= -> ->] & Hr').
  apply list_elem_of_filter in Hr' as [_ Hr']. by apply (Hore r' x).
Qed.

(** X26. On an engine that sorts NULL last in descending order, and with the
    tonnages non-negative, the report is in non-increasing order of
    [total_ore_extracted]. *)
Lemma utilization_sqlite_non_increasing db :
  bind db = Sql.SQLite → Spec.ore_non_negative db →
  StronglySorted (flip Qle)
    (EquipmentUtilization.total_ore_extracted <$> get_equipment_utilization db).
Proof.
  intros Hbind Hore. unfold get_equipment_utilization.
  rewrite <-list_fmap_compose, Hbind.
  apply (StronglySorted_fmap_elem _
           (λ a b : Equipment.t * Z * option Q,
              Sql.le_null Sql.SQLite Qle b.2 a.2)).
  - intros x y Hx Hy. unfold Sql.order_by_desc in Hx, Hy.
    rewrite merge_sort_Permutation in Hx, Hy.
    apply list_elem_of_omap in Hx as (gx & Hgx & Hrx).
    apply list_elem_of_omap in Hy as (gy & Hgy & Hry).
    pose proof (utilization_row_sum_nonneg db gx x) as Hnx.
    pose proof (utilization_row_sum_nonneg db gy y) as Hny.
    destruct x as [[ex nx] ox], y as [[ey ny] oy]. cbn [snd]. intros Hle.
    change (Py.or_float oy 0 <= Py.or_float ox 0)%Q.
    destruct ox as [qx|], oy as [qy|]; cbn in Hle.
    + by rewrite !or_float_some.
    + rewrite or_float_some. by eapply Hnx.
    + done.
    + apply Qle_refl.
  - apply StronglySorted_merge_sort.
    + intros a b c Hab Hbc. by etransitivity.
    + intros a b. apply total; apply _.
Qed.

End UtilizationOrder.

(** C2. On a PostgreSQL session the report is not in non-increasing order of
    [total_ore_extracted]: the machine without production records, whose sum
    is NULL, is listed before the machine that extracted 25.5 tonnes. *)
Theorem utilization_postgresql_lists_null_sum_first :
  EquipmentUtilization.total_ore_extracted <$>
    MiningService.get_equipment_utilization (Scenario.db1 Sql.PostgreSQL)
  = [0; 51 # 2]%Q ∧
  EquipmentUtilization.equipment_code <$>
    MiningService.get_equipment_utilization (Scenario.db1 Sql.PostgreSQL)
  = ["EQ-2"; "EQ-1"] ∧
  ¬ StronglySorted (flip Qle)
      (EquipmentUtilization.total_ore_extracted <$>
         MiningService.get_equipment_utilization (Scenario.db1 Sql.PostgreSQL)).
Proof.
  split; [by vm_compute|]. split; [by vm_compute|].
  replace (EquipmentUtilization.total_ore_extracted <$> _) with [0; 51 # 2]%Q
    by (by vm_compute).
  intros Hs. apply StronglySorted_inv in Hs as [_ Hs].
  apply Forall_cons in Hs as [Hs _]. by vm_compute in Hs.
Qed.

(** ** Operations Summary *)

Lemma summary_pending_maintenance_min (db : Session) (today : Z) :
  Analytics.pending_maintenance (Analytics.get_summary db today) =
  Z.of_nat (5 `min` length (Spec.incomplete_logs db)).
Proof.
  unfold Analytics.get_summary. cbn [Analytics.pending_maintenance].
  unfold MiningService.get_maintenance_logs, Sql.offset_limit. cbn [Py.truthy_opt_int].
  rewrite length_take, drop_0. unfold Sql.order_by_desc.
  by rewrite merge_sort_Permutation.
Qed.

(** C3. With six incomplete maintenance logs in the table, the summary reports
    [pending_maintenance = 5]: the figure is the length of a listing limited
    to five rows. *)
Theorem summary_pending_maintenance_capped :
  Z.of_nat (length (Spec.incomplete_logs (Scenario.db1 Sql.PostgreSQL))) = 6%Z ∧
  Analytics.pending_maintenance
    (Analytics.get_summary (Scenario.db1 Sql.PostgreSQL) 12) = 5%Z.
Proof. split; by vm_compute. Qed.

(** ** Equipment metrics *)

Section MetricsFacts.
Import MiningTasks.

Lemma for_each_Forall2 {A B} (f : A → result B) (R : A → B → Prop) (l : list A) :
  (∀ a, ∃ b, f a = inr b ∧ R a b) →
  ∃ bs, for_each f l = inr bs ∧ Forall2 R l bs.
Proof.
  intros Hf. induction l as [|a l (bs & Hbs & HR)].
  - exists []. by split.
  - destruct (Hf a) as (b & Hb & HRb). exists (b :: bs).
    cbn. rewrite Hb. cbn. rewrite Hbs. cbn. split; [done|by constructor].
Qed.

Lemma Qeq_bool_false_neq (q : Q) : Qeq_bool q 0 = false → ¬ (q == 0)%Q.
Proof. intros Hb Heq. apply Qeq_bool_iff in Heq. congruence. Qed.

Lemma Qle_bool_false_lt (q : Q) : Qle_bool q 0 = false → (0 < q)%Q.
Proof.
  intros Hb. apply Qnot_le_lt. intros Hle. apply Qle_bool_iff in Hle. congruence.
Qed.

(** One turn of the loop: it does not raise, and the dictionary it appends
    is the one of the row. *)
Lemma metrics_of_ok (r : Equipment.t * Z * option Q) :
  ∃ m, metrics_of r = inr m ∧ Spec.efficiency_from_row r m.
Proof.
  destruct r as [[e n] ore].
  unfold metrics_of, Spec.efficiency_from_row. cbn [fst snd].
  destruct (Equipment.operating_hours e) as [h|]; cbn.
  2:{ eexists. split; [done|]. cbn. split; [done|]. split; [|done].
      intros h o [=]. }
  unfold Py.truthy_float.
  destruct (Qeq_bool h 0) eqn:Hh0; cbn.
  { eexists. split; [done|]. cbn. split; [done|]. split; [|done].
    intros h' o [= <-] _ Hpos _. apply Qeq_bool_iff in Hh0.
    rewrite Hh0 in Hpos. by apply Qlt_irrefl in Hpos. }
  destruct (Qle_bool h 0) eqn:Hhle; cbn.
  { eexists. split; [done|]. cbn. split; [done|]. split; [|done].
    intros h' o [= <-] _ Hpos _. apply Qle_bool_iff in Hhle.
    by apply Qlt_not_le in Hpos. }
  destruct ore as [o|]; cbn.
  2:{ eexists. split; [done|]. cbn. split; [done|]. split; [|done].
      intros h' o _ [=]. }
  unfold Py.truthy_float. destruct (Qeq_bool o 0) eqn:Ho0; cbn.
  { eexists. split; [done|]. cbn. split; [done|]. split; [|done].
    intros h' o' _ [= <-] _ Hne. apply Qeq_bool_iff in Ho0. by destruct Hne. }
  rewrite Hh0. cbn. eexists. split; [done|]. cbn. split; [done|]. split.
  - by intros h' o' [= <-] [= <-] _ _.
  - apply Qle_bool_false_lt in Hhle. apply Qeq_bool_false_neq in Ho0.
    intros [[=]|[(h' & [= <-] & Hle)|[[=]|(o' & [= <-] & Heq)]]].
    + by apply Qlt_not_le in Hhle.
    + by destruct Ho0.
Qed.

End MetricsFacts.

(** C9. The equipment-metrics job never raises, so never divides by zero,
    and returns one dictionary for each row of its query, in the order of
    the rows.  The dictionary of a row carries the id of the row's
    equipment; its efficiency is the rounded quotient of the row's ore total
    by the row's operating hours when the hours are present and strictly
    positive and the total is present and not zero, and it is 0 when the
    hours are missing, zero or negative, or the total is absent or zero. *)
Theorem equipment_metrics_division_guarded (db : Session) :
  ∃ metrics,
    MiningTasks.calculate_equipment_metrics db = inr metrics ∧
    Forall2 Spec.efficiency_from_row (MiningTasks.results db) metrics.
Proof.
  unfold MiningTasks.calculate_equipment_metrics.
  apply for_each_Forall2, metrics_of_ok.
Qed.

(** ** Listing operations *)

(** C10. A [shift_id] or [equipment_id] of 0 is not tested by
    [get_production_records]: the call returns what it returns with the
    argument left out.  The same holds for [equipment_id = 0] in
    [get_maintenance_logs] and for an empty [mine_section] or
    [equipment_type] in [get_shifts] and [get_all_equipment]. *)
Theorem falsy_filter_arguments_are_skipped (db : Session) (skip limit : nat) :
  (∀ equipment_id,
     MiningService.get_production_records db skip limit (Some 0%Z) equipment_id =
     MiningService.get_production_records db skip limit None equipment_id) ∧
  (∀ shift_id,
     MiningService.get_production_records db skip limit shift_id (Some 0%Z) =
     MiningService.get_production_records db skip limit shift_id None) ∧
  (∀ is_completed,
     MiningService.get_maintenance_logs db skip limit (Some 0%Z) is_completed =
     MiningService.get_maintenance_logs db skip limit None is_completed) ∧
  (∀ start_date end_date,
     MiningService.get_shifts db skip limit start_date end_date (Some "") =
     MiningService.get_shifts db skip limit start_date end_date None) ∧
  (∀ status,
     MiningService.get_all_equipment db skip limit status (Some "") =
     MiningService.get_all_equipment db skip limit status None).
Proof. repeat split. Qed.

(** No record of the scenario belongs to a shift 0, yet asking for
    [shift_id = 0] lists all four records. *)
Example get_production_records_shift_zero :
  filter (λ r, ProductionRecord.shift_id r = 0%Z)
         (production_records (Scenario.db1 Sql.PostgreSQL)) = [] ∧
  ProductionRecord.id <$>
    MiningService.get_production_records (Scenario.db1 Sql.PostgreSQL)
      0 100 (Some 0%Z) None = [4; 3; 2; 1]%Z.
Proof. split; by vm_compute. Qed.

(** ** Update operations *)

Section UpdateFacts.
Import Orm.

Lemma setattr_loop_frame (items : list (string * value)) (obj : instance) k :
  k ∉ items.*1 →
  foldl (λ o kv, setattr o kv.1 kv.2) obj items !! k = obj !! k.
Proof.
  revert obj. induction items as [|[k' v] items IH]; intros obj Hk; [done|].
  cbn in Hk. apply not_elem_of_cons in Hk as [Hne Hk].
  cbn. rewrite IH by done. unfold setattr. by rewrite lookup_insert_ne.
Qed.

Lemma model_dump_keys fields (request : gmap string value) k :
  k ∈ (model_dump fields request).*1 → k ∈ fields ∧ is_Some (request !! k).
Proof.
  unfold model_dump. intros ([k' v] & -> & Hin)%list_elem_of_fmap.
  apply list_elem_of_omap in Hin as (f & Hf & Hv).
  destruct (request !! f) as [w|] eqn:Hw; [|done].
  cbn in Hv. injection Hv as <- <-. cbn. by rewrite Hw.
Qed.

Lemma commit_frame not_null now (loaded obj : instance) keys stored k :
  commit not_null now loaded obj keys = inr stored →
  k ≠ "updated_at" → obj !! k = loaded !! k → stored !! k = loaded !! k.
Proof.
  unfold commit. intros Hc Hk Hobj.
  destruct (dirty loaded obj keys); [|by injection Hc as <-].
  destruct (existsb _ not_null); [done|]. injection Hc as <-.
  by rewrite lookup_insert_ne.
Qed.

Lemma update_found fields not_null now (table : list instance) id
    (request : gmap string value) i db_row stored :
  list_find (λ row : instance, row !! "id" = Some (Int id)) table
    = Some (i, db_row) →
  commit not_null now db_row
    (foldl (λ o kv, setattr o kv.1 kv.2) db_row (model_dump fields request))
    (model_dump fields request).*1 = inr stored →
  update fields not_null now table id request =
  inr (Some stored, <[i := stored]> table).
Proof. intros Hfind Hcommit. unfold update. by rewrite Hfind, Hcommit. Qed.

Lemma update_not_found fields not_null now (table : list instance) id
    (request : gmap string value) :
  list_find (λ row : instance, row !! "id" = Some (Int id)) table = None →
  update fields not_null now table id request = inr (None, table).
Proof. intros Hfind. unfold update. by rewrite Hfind. Qed.

Lemma commit_dirty not_null now (loaded obj : instance) keys :
  dirty loaded obj keys = true →
  existsb (λ c, attr_eqb (obj !! c) (Some Null)) not_null = false →
  commit not_null now loaded obj keys = inr (<["updated_at" := DateTime now]> obj).
Proof. intros Hd Hn. unfold commit. by rewrite Hd, Hn. Qed.

Lemma commit_clean not_null now (loaded obj : instance) keys :
  dirty loaded obj keys = false →
  commit not_null now loaded obj keys = inr loaded.
Proof. intros Hd. unfold commit. by rewrite Hd. Qed.

Lemma commit_refused not_null now (loaded obj : instance) keys :
  dirty loaded obj keys = true →
  existsb (λ c, attr_eqb (obj !! c) (Some Null)) not_null = true →
  commit not_null now loaded obj keys = inl IntegrityError.
Proof. intros Hd Hn. unfold commit. by rewrite Hd, Hn. Qed.

Lemma shift_row_found :
  list_find (λ row : instance, row !! "id" = Some (Int 1)) [Scenario.shift_row]
  = Some (0%nat, Scenario.shift_row).
Proof.
  apply list_find_Some. split; [reflexivity|]. split.
  - vm_compute. reflexivity.
  - intros j y _ Hj. lia.
Qed.

End UpdateFacts.

(** The frame of the shared update procedure, at any schema. *)
Lemma update_frame
    (fields not_null : list string) (now : Z) (table : list (gmap string Orm.value))
    (id : Z) (request : gmap string Orm.value) (i : nat) (row : gmap string Orm.value) :
  table !! i = Some row →
  Spec.unset_fields_kept fields request row
    (Orm.table_after table (Orm.update fields not_null now table id request) !! i).
Proof.
  intros Hrow. unfold Orm.update, Spec.unset_fields_kept.
  destruct (list_find _ table) as [[j db_row]|] eqn:Hfind; cbn; [|eauto].
  apply list_find_Some in Hfind as (Hj & _ & _).
  destruct (Orm.commit _ _ _ _ _) as [e|stored] eqn:Hc; cbn; [eauto|].
  destruct (decide (i = j)) as [->|Hne].
  - rewrite list_lookup_insert_eq by (by eapply lookup_lt_Some).
    exists stored. split; [done|]. intros k Hk Hunset.
    assert (row = db_row) as -> by congruence.
    eapply commit_frame; [done..|].
    apply setattr_loop_frame. intros Hin%model_dump_keys.
    destruct Hin as [Hf [v Hv]]. destruct Hunset; [done|congruence].
  - rewrite list_lookup_insert_ne by done. eauto.
Qed.

(** C8, as the code has it.  After [update_shift], [update_production_record],
    [update_equipment] or [update_maintenance_log], every row of the table is
    still there, and every attribute other than [updated_at] that is not a
    field of the operation's schema set in the request has the value it had;
    this holds whether the call returns or the store refuses the update. *)
Theorem update_keeps_unset_fields
    (now : Z) (table : list (gmap string Orm.value)) (id : Z)
    (request : gmap string Orm.value) (i : nat) (row : gmap string Orm.value) :
  table !! i = Some row →
  Spec.unset_fields_kept Orm.MiningShiftUpdate request row
    (Orm.table_after table (Orm.update_shift now table id request) !! i) ∧
  Spec.unset_fields_kept Orm.ProductionRecordUpdate request row
    (Orm.table_after table (Orm.update_production_record now table id request) !! i) ∧
  Spec.unset_fields_kept Orm.EquipmentUpdate request row
    (Orm.table_after table (Orm.update_equipment now table id request) !! i) ∧
  Spec.unset_fields_kept Orm.MaintenanceLogUpdate request row
    (Orm.table_after table (Orm.update_maintenance_log now table id request) !! i).
Proof.
  intros Hrow. repeat split; by apply update_frame.
Qed.

(** C8, as stated, fails for [updated_at]: a request that sets only [notes]
    is applied at time 5 to a shift last written at time 0, and the stored
    shift has [updated_at = 5]. *)
Lemma update_shift_changes_updated_at :
  Scenario.notes_request !! "updated_at" = None ∧
  Orm.update_shift 5 [Scenario.shift_row] 1 Scenario.notes_request =
    inr (Some (<["updated_at" := Orm.DateTime 5]>
                 (<["notes" := Orm.Str "blasting done"]> Scenario.shift_row)),
         [<["updated_at" := Orm.DateTime 5]>
            (<["notes" := Orm.Str "blasting done"]> Scenario.shift_row)]) ∧
  ¬ (∀ row', Orm.table_after [Scenario.shift_row]
               (Orm.update_shift 5 [Scenario.shift_row] 1 Scenario.notes_request)
               !! 0%nat = Some row' →
             ∀ k, Scenario.notes_request !! k = None →
                  row' !! k = Scenario.shift_row !! k).
Proof.
  split; [done|].
  assert (Orm.update_shift 5 [Scenario.shift_row] 1 Scenario.notes_request =
    inr (Some (<["updated_at" := Orm.DateTime 5]>
                 (<["notes" := Orm.Str "blasting done"]> Scenario.shift_row)),
         [<["updated_at" := Orm.DateTime 5]>
            (<["notes" := Orm.Str "blasting done"]> Scenario.shift_row)])) as Hrun.
  { apply update_found with (i := 0%nat) (db_row := Scenario.shift_row).
    - apply shift_row_found.
    - replace (Orm.model_dump Orm.MiningShiftUpdate Scenario.notes_request)
        with [("notes", Orm.Str "blasting done")] by (vm_compute; reflexivity).
      apply commit_dirty; vm_compute; reflexivity. }
  split; [done|]. rewrite Hrun. cbn. intros Hall.
  specialize (Hall _ eq_refl "updated_at" eq_refl).
  by vm_compute in Hall.
Qed.

(** ** The scenarios *)

(** Shift 1 has records of 10 and 5.5 tonnes with grades 2 and 3. *)
Example production_stats_one_day :
  MiningService.get_production_stats (Scenario.db1 Sql.SQLite) 10 10 =
  {| ProductionStats.total_ore_extracted := 31 # 2;
     ProductionStats.total_waste_removed := 0;
     ProductionStats.average_ore_grade := 5 # 2;
     ProductionStats.total_shifts := 1;
     ProductionStats.average_workers_per_shift := 40;
     ProductionStats.period_start := 10;
     ProductionStats.period_end := 10 |}.
Proof. by vm_compute. Qed.

(** Machine 1 is on two records of day 10 and counted once; the record of
    day 12 without equipment adds nothing. *)
Example daily_production_two_days :
  (λ e, (DailyProduction.date e, DailyProduction.shift_count e,
         DailyProduction.equipment_used e)) <$>
    MiningService.get_daily_production (Scenario.db1 Sql.SQLite) 0 50
  = [(10, 1, 1); (12, 1, 1)]%Z.
Proof. by vm_compute. Qed.

(** On SQLite the idle machine comes last. *)
Example utilization_sqlite_order :
  (λ u, (EquipmentUtilization.equipment_code u,
         EquipmentUtilization.total_production_records u,
         EquipmentUtilization.total_ore_extracted u)) <$>
    MiningService.get_equipment_utilization (Scenario.db1 Sql.SQLite)
  = [("EQ-1", 3%Z, (51 # 2)%Q); ("EQ-2", 0%Z, 0%Q)].
Proof. by vm_compute. Qed.

Lemma total_ore_extracted_sums_period_witness :
  shift_ids_unique (Scenario.db1 Sql.SQLite) ∧
  (ProductionStats.total_ore_extracted
     (MiningService.get_production_stats (Scenario.db1 Sql.SQLite) 10 11)
   == Sql.Qsum (Sql.non_null
        (ProductionRecord.ore_extracted_tonnes <$>
           Spec.records_in_period (Scenario.db1 Sql.SQLite) 10 11)))%Q.
Proof.
  split.
  - apply (bool_decide_unpack _). vm_compute. reflexivity.
  - apply (total_ore_extracted_sums_period (Scenario.db1 Sql.SQLite) 10 11).
    apply (bool_decide_unpack _). vm_compute. reflexivity.
Defined.

Lemma production_stats_empty_period_witness :
  (∀ s, s ∈ mining_shifts (Scenario.db1 Sql.SQLite) →
        ¬ MiningService.in_period 0 5 s) ∧
  MiningService.get_production_stats (Scenario.db1 Sql.SQLite) 0 5 =
  {| ProductionStats.total_ore_extracted := 0;
     ProductionStats.total_waste_removed := 0;
     ProductionStats.average_ore_grade := 0;
     ProductionStats.total_shifts := 0;
     ProductionStats.average_workers_per_shift := 0;
     ProductionStats.period_start := 0;
     ProductionStats.period_end := 5 |}.
Proof.
  split.
  - apply Forall_forall.
    repeat constructor; unfold MiningService.in_period; simpl; lia.
  - apply (production_stats_empty_period (Scenario.db1 Sql.SQLite) 0 5).
    apply Forall_forall.
    repeat constructor; unfold MiningService.in_period; simpl; lia.
Defined.

Lemma equipment_utilization_one_entry_each_witness :
  equipment_ids_unique (Scenario.db1 Sql.SQLite) ∧
  (MiningService.get_equipment_utilization (Scenario.db1 Sql.SQLite) ≡ₚ
     Spec.utilization_of (Scenario.db1 Sql.SQLite) <$>
       equipment (Scenario.db1 Sql.SQLite) ∧
   ∀ e, e ∈ equipment (Scenario.db1 Sql.SQLite) →
        Spec.records_of (Scenario.db1 Sql.SQLite) e = [] →
        ∃ u, u ∈ MiningService.get_equipment_utilization (Scenario.db1 Sql.SQLite) ∧
             EquipmentUtilization.equipment_code u = Equipment.equipment_code e ∧
             EquipmentUtilization.total_production_records u = 0%Z ∧
             EquipmentUtilization.total_ore_extracted u = 0%Q).
Proof.
  split.
  - apply (bool_decide_unpack _). vm_compute. reflexivity.
  - apply (equipment_utilization_one_entry_each (Scenario.db1 Sql.SQLite)).
    apply (bool_decide_unpack _). vm_compute. reflexivity.
Defined.

Lemma update_keeps_unset_fields_witness :
  [Scenario.shift_row] !! 0%nat = Some Scenario.shift_row ∧
  Spec.unset_fields_kept Orm.MiningShiftUpdate Scenario.notes_request
    Scenario.shift_row
    (Orm.table_after [Scenario.shift_row]
       (Orm.update_shift 5 [Scenario.shift_row] 1 Scenario.notes_request)
       !! 0%nat).
Proof.
  split.
  - reflexivity.
  - apply (update_keeps_unset_fields 5 [Scenario.shift_row] 1
             Scenario.notes_request 0 Scenario.shift_row).
    reflexivity.
Defined.

(** An unknown id changes nothing, and a request that sets a
    [nullable=False] column to null is refused by the store. *)
Example update_shift_unknown_id :
  Orm.update_shift 5 [Scenario.shift_row] 2 Scenario.notes_request =
  inr (None, [Scenario.shift_row]).
Proof.
  apply update_not_found. apply list_find_None. repeat constructor.
  vm_compute. discriminate.
Qed.

Example update_shift_null_shift_type :
  Orm.update_shift 5 [Scenario.shift_row] 1 {[ "shift_type" := Orm.Null ]} =
  inl IntegrityError.
Proof. by vm_compute. Qed.

(** A request that repeats the stored value issues no UPDATE and leaves
    [updated_at] as it was. *)
Example update_shift_same_value :
  Orm.update_shift 5 [Scenario.shift_row] 1 {[ "workers_count" := Orm.Int 40 ]} =
  inr (Some Scenario.shift_row, [Scenario.shift_row]).
Proof.
  unfold Orm.update_shift.
  rewrite (update_found _ _ _ _ _ _ 0%nat Scenario.shift_row Scenario.shift_row).
  - reflexivity.
  - apply shift_row_found.
  - apply commit_clean. vm_compute. reflexivity.
Qed.

(** ** Pages of the listing operations *)

Section PageFacts.
Context {A : Type}.

Lemma offset_limit_length (skip limit : nat) (rows : list A) :
  length (Sql.offset_limit skip limit rows) ≤ limit.
Proof. unfold Sql.offset_limit. rewrite length_take. lia. Qed.


Lemma offset_limit_subseteq (skip limit : nat) (rows : list A) :
  Sql.offset_limit skip limit rows ⊆ rows.
Proof.
  unfold Sql.offset_limit. etransitivity; [apply subseteq_take|apply subseteq_drop].
Qed.

Lemma offset_limit_all (limit : nat) (rows : list A) :
  length rows ≤ limit → Sql.offset_limit 0 limit rows = rows.
Proof. intros Hlen. unfold Sql.offset_limit. rewrite drop_0. by apply take_ge. Qed.


End PageFacts.

(** X1. A listing never returns more rows than [limit]. *)
Theorem listing_page_bounded (db : Session) (skip limit : nat) :
  (∀ start_date end_date mine_section,
     length (MiningService.get_shifts db skip limit start_date end_date mine_section)
     ≤ limit) ∧
  (∀ shift_id equipment_id,
     length (MiningService.get_production_records db skip limit shift_id equipment_id)
     ≤ limit) ∧
  (∀ status equipment_type,
     length (MiningService.get_all_equipment db skip limit status equipment_type)
     ≤ limit) ∧
  (∀ equipment_id is_completed,
     length (MiningService.get_maintenance_logs db skip limit equipment_id is_completed)
     ≤ limit).
Proof. repeat split; intros; apply offset_limit_length. Qed.


(** ** What the listing operations select *)

Section ListingFacts.
Import MiningService.

Lemma truthy_opt_int_true x :
  Py.truthy_opt_int x = true → ∃ z, x = Some z ∧ z ≠ 0%Z.
Proof.
  destruct x as [z|]; cbn; [|done]. unfold Py.truthy_int.
  destruct (Z.eqb_spec z 0); cbn; [done|]. intros _. by exists z.
Qed.

Lemma truthy_opt_int_false x z :
  Py.truthy_opt_int x = false → x = Some z → z = 0%Z.
Proof.
  intros Hf ->. cbn in Hf. unfold Py.truthy_int in Hf.
  by destruct (Z.eqb_spec z 0).
Qed.

Lemma elem_of_production_records_query db shift_id equipment_id r :
  r ∈ (let query := production_records db in
       let query :=
         if Py.truthy_opt_int shift_id
         then filter (λ r, Some (ProductionRecord.shift_id r) = shift_id) query
         else query in
       if Py.truthy_opt_int equipment_id
       then filter (λ r, ProductionRecord.equipment_id r = equipment_id) query
       else query) ↔
  r ∈ production_records db ∧ Behaviour.record_selected shift_id equipment_id r.
Proof.
  unfold Behaviour.record_selected. cbv zeta.
  assert ((if Py.truthy_opt_int shift_id
           then Some (ProductionRecord.shift_id r) = shift_id else True) ↔
          (∀ s, shift_id = Some s → s ≠ 0%Z → ProductionRecord.shift_id r = s))
    as Hshift.
  { destruct (Py.truthy_opt_int shift_id) eqn:Hs.
    - apply truthy_opt_int_true in Hs as (s & -> & Hs). split.
      + by intros [= ->] s' [= <-] _.
      + intros Hall. f_equal. by apply Hall.
    - split; [|done]. intros _ s Heq Hne.
      by destruct Hne; eapply truthy_opt_int_false. }
  assert ((if Py.truthy_opt_int equipment_id
           then ProductionRecord.equipment_id r = equipment_id else True) ↔
          (∀ e, equipment_id = Some e → e ≠ 0%Z →
                ProductionRecord.equipment_id r = Some e))
    as Hequipment.
  { destruct (Py.truthy_opt_int equipment_id) eqn:He.
    - apply truthy_opt_int_true in He as (e & -> & He). split.
      + by intros -> e' [= <-] _.
      + intros Hall. by apply Hall.
    - split; [|done]. intros _ e Heq Hne.
      by destruct Hne; eapply truthy_opt_int_false. }
  rewrite <-Hshift, <-Hequipment.
  destruct (Py.truthy_opt_int shift_id), (Py.truthy_opt_int equipment_id);
    rewrite ?list_elem_of_filter; tauto.
Qed.

End ListingFacts.

(** X3. A page of [get_production_records] holds only records of the table
    that carry every non-zero id asked for; and a page from the start that is
    at least as long as the table holds all of them. *)
Theorem get_production_records_selects
    (db : Session) (skip limit : nat) (shift_id equipment_id : option Z)
    (r : ProductionRecord.t) :
  (r ∈ MiningService.get_production_records db skip limit shift_id equipment_id →
   r ∈ production_records db ∧ Behaviour.record_selected shift_id equipment_id r) ∧
  (length (production_records db) ≤ limit →
   r ∈ production_records db → Behaviour.record_selected shift_id equipment_id r →
   r ∈ MiningService.get_production_records db 0 limit shift_id equipment_id).
Proof.
  split.
  - intros Hr. apply elem_of_production_records_query.
    unfold MiningService.get_production_records in Hr.
    apply offset_limit_subseteq in Hr. unfold Sql.order_by_desc in Hr.
    by rewrite merge_sort_Permutation in Hr.
  - intros Hlen Hr Hsel. unfold MiningService.get_production_records.
    rewrite offset_limit_all.
    + unfold Sql.order_by_desc. rewrite merge_sort_Permutation.
      by apply elem_of_production_records_query.
    + unfold Sql.order_by_desc. rewrite merge_sort_Permutation.
      etransitivity; [|exact Hlen].
      destruct (Py.truthy_opt_int shift_id), (Py.truthy_opt_int equipment_id);
        cbv zeta; repeat (etransitivity; [apply length_filter|]); done.
Qed.

(** X4. Unlike an id of 0, a completion flag of [False] is a filter: every
    log listed for [is_completed = b] has that flag, so a log whose flag is
    NULL is listed for neither value. *)
Theorem get_maintenance_logs_completion_filter
    (db : Session) (skip limit : nat) (equipment_id : option Z) (b : bool) :
  Forall (λ l, MaintenanceLog.is_completed l = Some b)
    (MiningService.get_maintenance_logs db skip limit equipment_id (Some b)).
Proof.
  apply Forall_forall. intros l Hl.
  unfold MiningService.get_maintenance_logs in Hl.
  apply offset_limit_subseteq in Hl. unfold Sql.order_by_desc in Hl.
  rewrite merge_sort_Permutation in Hl.
  by apply list_elem_of_filter in Hl as [Hb _].
Qed.

(** ** The order of the listings *)

Lemma string_compare_refl (s : string) : String.compare s s = Eq.
Proof.
  induction s as [|c s IH]; [done|]. cbn.
  unfold Ascii.compare. by rewrite N.compare_refl.
Qed.

Lemma string_compare_trans (s1 s2 s3 : string) :
  String.compare s1 s2 ≠ Gt → String.compare s2 s3 ≠ Gt →
  String.compare s1 s3 ≠ Gt.
Proof.
  revert s2 s3. induction s1 as [|c1 s1 IH]; intros [|c2 s2] [|c3 s3]; cbn;
    try done.
  unfold Ascii.compare.
  destruct (N.compare_spec (Ascii.N_of_ascii c1) (Ascii.N_of_ascii c2)) as [H12|H12|H12];
    destruct (N.compare_spec (Ascii.N_of_ascii c2) (Ascii.N_of_ascii c3)) as [H23|H23|H23];
    try done; intros Ha Hb.
  - rewrite H12, H23, N.compare_refl. by eapply IH.
  - rewrite H12. by apply N.compare_lt_iff in H23 as ->.
  - rewrite <-H23. by apply N.compare_lt_iff in H12 as ->.
  - assert (Ascii.N_of_ascii c1 < Ascii.N_of_ascii c3)%N as H13 by lia.
    by apply N.compare_lt_iff in H13 as ->.
Qed.

Global Instance string_leb_total : Total (λ a b : string, String.leb a b).
Proof.
  intros a b. destruct (String.leb_total a b) as [H|H]; [left|right]; by rewrite H.
Qed.

Global Instance string_leb_transitive : Transitive (λ a b : string, String.leb a b).
Proof.
  intros a b c. unfold String.leb. intros Hab Hbc.
  pose proof (string_compare_trans a b c) as Ht.
  destruct (String.compare a b), (String.compare b c), (String.compare a c);
    try done; by destruct Ht.
Qed.

Section OrderDescFacts.
Context {A K : Type} (le : relation K) `{∀ x y, Decision (le x y)}.
Context `{!Total le, !Transitive le}.




End OrderDescFacts.


(** X6. A date range whose end is before its start lists no shift. *)
Theorem get_shifts_inverted_range (db : Session) (skip limit : nat)
    (start_date end_date : Z) (mine_section : option string) :
  (end_date < start_date)%Z →
  MiningService.get_shifts db skip limit (Some start_date) (Some end_date)
    mine_section = [].
Proof.
  intros Hinv. unfold MiningService.get_shifts.
  rewrite (filter_none (λ s, (MiningShift.shift_date s ≤ end_date)%Z)).
  - assert (∀ l : list MiningShift.t,
              l = [] → Sql.offset_limit skip limit
                         (Sql.order_by_desc Z.le MiningShift.shift_date l) = [])
      as Hnil.
    { intros l ->. unfold Sql.offset_limit. cbn. by rewrite drop_nil, take_nil. }
    apply Hnil. by destruct (Py.truthy_opt_str mine_section).
  - intros s [Hs _]%list_elem_of_filter. lia.
Qed.

(** ** More on the period statistics and the daily rollup *)

Section PeriodFacts.
Import MiningService.

Lemma inverted_period_no_shift (start_date end_date : Z) (s : MiningShift.t) :
  (end_date < start_date)%Z → ¬ in_period start_date end_date s.
Proof. unfold in_period. lia. Qed.




End PeriodFacts.

(** X7. A period whose end is before its start gives the all-zero report and
    an empty daily rollup. *)
Theorem inverted_period_reports_nothing (db : Session) (start_date end_date : Z) :
  (end_date < start_date)%Z →
  MiningService.get_production_stats db start_date end_date =
    Behaviour.empty_stats start_date end_date ∧
  MiningService.get_daily_production db start_date end_date = [].
Proof.
  intros Hinv. split.
  - unfold MiningService.get_production_stats.
    rewrite no_shift_no_joined_row, (filter_none (MiningService.in_period _ _));
      [done|intros s _; by apply inverted_period_no_shift..].
  - unfold MiningService.get_daily_production.
    rewrite (filter_none (λ sr : MiningShift.t * ProductionRecord.t,
                            MiningService.in_period start_date end_date sr.1));
      [done|]. intros sr _. by apply inverted_period_no_shift.
Qed.



Section DailyRollupFacts.
Import MiningService.

Lemma daily_entry_shift_count r :
  DailyProduction.shift_count (daily_entry r) = r.2.1.2.
Proof. destruct r as [d [[[??]?]?]]. cbn. apply or_int_id. Qed.

Lemma daily_entry_total_ore r :
  DailyProduction.total_ore (daily_entry r) = Py.or_float r.2.1.1.1 0.
Proof. by destruct r as [d [[[??]?]?]]. Qed.

Lemma elem_of_daily_rows db start_date end_date s r :
  (s, r) ∈ filter (λ sr : MiningShift.t * ProductionRecord.t,
                     in_period start_date end_date sr.1)
                  (shifts_join_records db) ↔
  s ∈ mining_shifts db ∧ r ∈ production_records db ∧
  MiningShift.id s = ProductionRecord.shift_id r ∧
  in_period start_date end_date s.
Proof.
  rewrite list_elem_of_filter, elem_of_shifts_join_records. cbn. tauto.
Qed.

End DailyRollupFacts.

(** X10. The dates of the Daily Production Rollup are exactly the dates of
    the period on which some shift has a production record; a date without
    one has no entry. *)
Theorem daily_production_dates_are_worked_dates
    (db : Session) (start_date end_date date : Z) :
  date ∈ DailyProduction.date <$>
           MiningService.get_daily_production db start_date end_date ↔
  (start_date ≤ date ≤ end_date)%Z ∧
  ∃ s r, s ∈ mining_shifts db ∧ r ∈ production_records db ∧
         MiningShift.id s = ProductionRecord.shift_id r ∧
         MiningShift.shift_date s = date.
Proof.
  rewrite daily_production_dates, order_by_Permutation, <-list_fmap_compose.
  change (fst ∘ MiningService.daily_row) with
    (fst : Z * list (MiningShift.t * ProductionRecord.t) → Z).
  rewrite group_by_keys, elem_of_remove_dups, list_elem_of_fmap. split.
  - intros ([s r] & -> & Hin). apply elem_of_daily_rows in Hin
      as (Hs & Hr & Hid & Hperiod). cbn. split; [done|]. by exists s, r.
  - intros [Hperiod (s & r & Hs & Hr & Hid & Hdate)]. exists (s, r).
    split; [done|]. apply elem_of_daily_rows.
    unfold MiningService.in_period. rewrite Hdate. done.
Qed.

(** X11. In every entry of the rollup, [shift_count] is the number of
    distinct shifts of that date that have a production record; a shift
    without records is not counted. *)
Theorem daily_shift_count_counts_worked_shifts
    (db : Session) (start_date end_date : Z) :
  Forall
    (λ e, DailyProduction.shift_count e =
          Z.of_nat (size (list_to_set
            (MiningShift.id <$>
               filter (λ s, MiningShift.shift_date s = DailyProduction.date e ∧
                            Exists (λ r, ProductionRecord.shift_id r = MiningShift.id s)
                                   (production_records db))
                      (mining_shifts db)) : gset Z)))
    (MiningService.get_daily_production db start_date end_date).
Proof.
  apply Forall_forall. intros e He.
  apply elem_of_daily_production in He as (g & -> & Hg).
  rewrite daily_entry_shift_count, daily_entry_date.
  apply elem_of_group_by in Hg as [(sr0 & Hsr0 & Hkey) Hrows].
  apply list_elem_of_filter in Hsr0 as [Hperiod _].
  destruct g as [date rows]. cbn in *. subst rows.
  unfold Sql.count_distinct. rewrite length_remove_dups_size.
  do 2 f_equal. apply set_eq. intros x.
  rewrite !elem_of_list_to_set, elem_of_non_null_fmap, list_elem_of_fmap. split.
  - intros ([s r] & Hin & Hx). cbn in Hx. injection Hx as <-.
    apply list_elem_of_filter in Hin as [Hdate Hin].
    apply elem_of_daily_rows in Hin as (Hs & Hr & Hid & _).
    exists s. split; [done|]. apply list_elem_of_filter. split; [|done].
    split; [done|]. apply Exists_exists. by exists r.
  - intros (s & -> & Hin). apply list_elem_of_filter in Hin as [[Hdate Hex] Hs].
    apply Exists_exists in Hex as (r & Hr & Hid).
    exists (s, r). split; [|done].
    apply list_elem_of_filter. split; [done|].
    apply elem_of_daily_rows. repeat split; try done.
    + unfold MiningService.in_period in Hperiod |- *. cbn in *. lia.
    + unfold MiningService.in_period in Hperiod |- *. cbn in *. lia.
Qed.

(** ** Sums over groups and over joins *)

Section QsumFacts.











End QsumFacts.

Section RollupTotalFacts.
Import MiningService.



End RollupTotalFacts.


(** ** The summary and the metrics job over the utilization query *)

Section SummaryFacts.
Import MiningService.

Lemma utilization_length db :
  equipment_ids_unique db →
  length (get_equipment_utilization db) = length (equipment db).
Proof.
  intros Hnd. unfold get_equipment_utilization.
  rewrite length_fmap. unfold Sql.order_by_desc.
  rewrite merge_sort_Permutation, utilization_groups by done.
  by rewrite length_fmap.
Qed.

Lemma bind_result_inr {A B} (m : result A) (k : A → result B) (b : B) :
  bind_result m k = inr b → ∃ a, m = inr a ∧ k a = inr b.
Proof. destruct m as [e|a]; cbn; [done|eauto]. Qed.

Lemma metrics_of_columns (r : Equipment.t * Z * option Q) m :
  MiningTasks.metrics_of r = inr m →
  (MiningTasks.equipment_code m, MiningTasks.total_production_records m,
   MiningTasks.total_ore_extracted m) =
  (EquipmentUtilization.equipment_code (utilization_entry r),
   EquipmentUtilization.total_production_records (utilization_entry r),
   EquipmentUtilization.total_ore_extracted (utilization_entry r)).
Proof.
  destruct r as [[e n] ore]. unfold MiningTasks.metrics_of. intros Hm.
  apply bind_result_inr in Hm as (cond & _ & Hm).
  apply bind_result_inr in Hm as (efficiency & _ & Hm).
  by injection Hm as <-.
Qed.

End SummaryFacts.

(** X13. With the equipment ids unique, the summary counts every equipment
    row in [total_tracked], and its [top_performers] are the first five
    entries of the utilization report, or all of them when there are fewer. *)
Theorem summary_tracks_every_equipment (db : Session) (today : Z) :
  equipment_ids_unique db →
  Analytics.total_tracked (Analytics.get_summary db today) =
    Z.of_nat (length (equipment db)) ∧
  Analytics.top_performers (Analytics.get_summary db today) =
    take 5 (MiningService.get_equipment_utilization db) ∧
  length (Analytics.top_performers (Analytics.get_summary db today)) =
    5 `min` length (equipment db).
Proof.
  intros Hnd. unfold Analytics.get_summary.
  cbn [Analytics.total_tracked Analytics.top_performers].
  assert (match MiningService.get_equipment_utilization db with
          | [] => []
          | _ :: _ => take 5 (MiningService.get_equipment_utilization db)
          end = take 5 (MiningService.get_equipment_utilization db)) as ->.
  { by destruct (MiningService.get_equipment_utilization db). }
  by rewrite length_take, utilization_length.
Qed.

(** X14. The metrics job reports the same equipment with the same record
    counts and tonnages as the utilization report, in some order. *)
Theorem equipment_metrics_match_utilization (db : Session) :
  ∃ metrics,
    MiningTasks.calculate_equipment_metrics db = inr metrics ∧
    (λ m, (MiningTasks.equipment_code m, MiningTasks.total_production_records m,
           MiningTasks.total_ore_extracted m)) <$> metrics ≡ₚ
    (λ u, (EquipmentUtilization.equipment_code u,
           EquipmentUtilization.total_production_records u,
           EquipmentUtilization.total_ore_extracted u)) <$>
      MiningService.get_equipment_utilization db.
Proof.
  unfold MiningTasks.calculate_equipment_metrics, MiningTasks.results,
    MiningService.get_equipment_utilization.
  destruct (for_each_Forall2 MiningTasks.metrics_of
              (λ r m, MiningTasks.metrics_of r = inr m)
              (omap MiningService.utilization_row
                 (Sql.group_by (Equipment.id ∘ fst)
                    (MiningService.equipment_outerjoin_records db))))
    as (metrics & Hrun & Hall).
  { intros r. destruct (metrics_of_ok r) as (m & Hm & _). eauto. }
  exists metrics. split; [done|].
  rewrite <-list_fmap_compose. unfold Sql.order_by_desc.
  rewrite merge_sort_Permutation.
  clear Hrun. induction Hall as [|r m rs ms Hm _ IH]; [done|].
  rewrite !fmap_cons. rewrite (metrics_of_columns r m Hm).
  apply perm_skip, IH.
Qed.

(** ** The scheduled jobs *)

Section ScheduledFacts.
Import ScheduledTasks.

Lemma py_sum_from (acc : Q) (xs : list (option Q)) :
  Forall is_Some xs →
  ∃ q, foldl (λ acc x,
                (do a <- acc;
                 match x with
                 | Some q => ret (a + q)%Q
                 | None => raise TypeError
                 end)%result)
             (ret acc) xs = inr q ∧
       (q == acc + Sql.Qsum (Sql.non_null xs))%Q.
Proof.
  intros Hxs. revert acc. induction Hxs as [|x xs [q Hq] _ IH]; intros acc.
  - exists acc. split; [done|]. change (Sql.Qsum (Sql.non_null [])) with 0%Q.
    by rewrite Qplus_0_r.
  - subst x. cbn [foldl]. cbn [bind_result ret].
    destruct (IH (acc + q)%Q) as (q' & Hrun & Hsum). exists q'.
    split; [done|]. rewrite Hsum.
    change (Sql.Qsum (Sql.non_null (Some q :: xs)))
      with (q + Sql.Qsum (Sql.non_null xs))%Q. ring.
Qed.

Lemma py_sum_raised (xs : list (option Q)) :
  foldl (λ acc x,
           (do a <- acc;
            match x with
            | Some q => ret (a + q)%Q
            | None => raise TypeError
            end)%result)
        (raise TypeError) xs = inl TypeError.
Proof. induction xs as [|x xs IH]; [done|]. exact IH. Qed.

Lemma py_sum_all_some (xs : list (option Q)) :
  Forall is_Some xs →
  ∃ q, py_sum xs = inr q ∧ (q == Sql.Qsum (Sql.non_null xs))%Q.
Proof.
  intros Hxs. destruct (py_sum_from 0 xs Hxs) as (q & Hrun & Hsum).
  exists q. split; [done|]. by rewrite Hsum, Qplus_0_l.
Qed.

Lemma py_sum_none (xs : list (option Q)) :
  None ∈ xs → py_sum xs = inl TypeError.
Proof.
  unfold py_sum. generalize 0%Q. induction xs as [|x xs IH]; intros acc Hin.
  - by apply elem_of_nil in Hin.
  - cbn [foldl]. cbn [bind_result ret]. destruct x as [q|].
    + apply IH. by apply elem_of_cons in Hin as [|].
    + apply py_sum_raised.
Qed.

Lemma Forall_is_Some_fmap {A B} (f : A → option B) (l : list A) :
  Forall is_Some (f <$> l) ∨ None ∈ f <$> l.
Proof.
  induction l as [|a l [IH|IH]]; [by left|..].
  - destruct (f a) as [b|] eqn:E.
    + left. rewrite fmap_cons, E. constructor; [by eexists|done].
    + right. rewrite fmap_cons, E. left.
  - right. rewrite fmap_cons. by right.
Qed.

Lemma alert_entries_ok (l : list Equipment.t) :
  Forall (λ e, is_Some (Equipment.next_maintenance_date e)) l →
  ∃ alerts, alert_entries l = inr alerts ∧
            Forall2 (λ e a, alert_equipment_code a = Equipment.equipment_code e ∧
                            alert_name a = Equipment.name e ∧
                            Equipment.next_maintenance_date e = Some (alert_date a))
                    l alerts.
Proof.
  induction 1 as [|e l [d Hd] _ (alerts & Hrun & Hall)].
  - exists []. by split.
  - eexists (_ :: alerts). cbn. unfold alert_entry. rewrite Hd. cbn.
    rewrite Hrun. split; [done|]. by constructor.
Qed.

End ScheduledFacts.

(** X15. The daily report gives, for yesterday, the figures of Period
    Production Statistics for the period of that one day: the same tonnages
    and shift count, and the average grade rounded to two places. *)
Theorem daily_report_agrees_with_period_stats (db : Session) (today now : Z) :
  let report := ScheduledTasks.generate_daily_report db today now in
  let stats := MiningService.get_production_stats db (today - 1) (today - 1) in
  ScheduledTasks.report_date report = (today - 1)%Z ∧
  ScheduledTasks.total_ore_tonnes report =
    ProductionStats.total_ore_extracted stats ∧
  ScheduledTasks.total_waste_tonnes report =
    ProductionStats.total_waste_removed stats ∧
  ScheduledTasks.average_ore_grade report =
    MiningTasks.round2 (ProductionStats.average_ore_grade stats) ∧
  ScheduledTasks.total_shifts report = ProductionStats.total_shifts stats.
Proof.
  cbv zeta.
  unfold ScheduledTasks.generate_daily_report, MiningService.get_production_stats.
  cbn [ScheduledTasks.report_date ScheduledTasks.total_ore_tonnes
       ScheduledTasks.total_waste_tonnes ScheduledTasks.average_ore_grade
       ScheduledTasks.total_shifts ProductionStats.total_ore_extracted
       ProductionStats.total_waste_removed ProductionStats.average_ore_grade
       ProductionStats.total_shifts].
  rewrite (list_filter_iff
             (λ rs : ProductionRecord.t * MiningShift.t,
                MiningShift.shift_date rs.2 = (today - 1)%Z)
             (λ rs, MiningService.in_period (today - 1) (today - 1) rs.2))
    by (intros rs; unfold MiningService.in_period; lia).
  rewrite (list_filter_iff
             (λ s, MiningShift.shift_date s = (today - 1)%Z)
             (MiningService.in_period (today - 1) (today - 1)))
    by (intros s; unfold MiningService.in_period; lia).
  done.
Qed.

(** X16. [process_production_data] adds up the tonnages of the records
    created in the last hour when all of them are set, and raises
    [TypeError] as soon as one of these records has a NULL tonnage of ore or
    of waste. *)
Theorem process_production_data_sums_or_raises (db : Session) (now : Z) :
  let recent :=
    filter (λ r, ScheduledTasks.null_ge (ProductionRecord.created_at r)
                   (now - ScheduledTasks.hour))
           (production_records db) in
  (Forall (λ r, is_Some (ProductionRecord.ore_extracted_tonnes r) ∧
                is_Some (ProductionRecord.waste_removed_tonnes r)) recent →
   ∃ res, ScheduledTasks.process_production_data db now = inr res ∧
          ScheduledTasks.records_processed res = Z.of_nat (length recent) ∧
          (ScheduledTasks.total_ore_extracted res ==
           Sql.Qsum (Sql.non_null
             (ProductionRecord.ore_extracted_tonnes <$> recent)))%Q ∧
          (ScheduledTasks.total_waste_removed res ==
           Sql.Qsum (Sql.non_null
             (ProductionRecord.waste_removed_tonnes <$> recent)))%Q) ∧
  (¬ Forall (λ r, is_Some (ProductionRecord.ore_extracted_tonnes r) ∧
                  is_Some (ProductionRecord.waste_removed_tonnes r)) recent →
   ScheduledTasks.process_production_data db now = inl TypeError).
Proof.
  cbv zeta. unfold ScheduledTasks.process_production_data.
  set (recent := filter _ (production_records db)). split.
  - intros Hall.
    destruct (py_sum_all_some (ProductionRecord.ore_extracted_tonnes <$> recent))
      as (ore & Hore & Hore_sum).
    { apply Forall_fmap. eapply Forall_impl; [exact Hall|]. by intros r [? _]. }
    destruct (py_sum_all_some (ProductionRecord.waste_removed_tonnes <$> recent))
      as (waste & Hwaste & Hwaste_sum).
    { apply Forall_fmap. eapply Forall_impl; [exact Hall|]. by intros r [_ ?]. }
    rewrite Hore. cbn [bind_result]. rewrite Hwaste. cbn [bind_result].
    eexists. split; [done|]. by cbn.
  - intros Hnot.
    destruct (Forall_is_Some_fmap ProductionRecord.ore_extracted_tonnes recent)
      as [Hore|Hore]; [|by rewrite (py_sum_none _ Hore)].
    destruct (py_sum_all_some _ Hore) as (ore & -> & _). cbn [bind_result].
    destruct (Forall_is_Some_fmap ProductionRecord.waste_removed_tonnes recent)
      as [Hwaste|Hwaste]; [|by rewrite (py_sum_none _ Hwaste)].
    destruct Hnot. rewrite Forall_forall in Hore, Hwaste.
    apply Forall_forall. intros r Hr. split.
    + apply Hore. by apply list_elem_of_fmap_2.
    + apply Hwaste. by apply list_elem_of_fmap_2.
Qed.

Section AlertFacts.
Import ScheduledTasks.

Lemma upcoming_equipment_dated db today :
  Forall (λ e, is_Some (Equipment.next_maintenance_date e))
         (upcoming_equipment db today).
Proof.
  apply Forall_forall. intros e [[Hge _] _]%list_elem_of_filter.
  by destruct (Equipment.next_maintenance_date e).
Qed.

Lemma overdue_equipment_dated db today :
  Forall (λ e, is_Some (Equipment.next_maintenance_date e))
         (overdue_equipment db today).
Proof.
  apply Forall_forall. intros e [[Hlt _] _]%list_elem_of_filter.
  by destruct (Equipment.next_maintenance_date e).
Qed.

Lemma Forall2_elem_of_r {A B} (R : A → B → Prop) (l : list A) (k : list B) b :
  Forall2 R l k → b ∈ k → ∃ a, a ∈ l ∧ R a b.
Proof.
  induction 1 as [|a' b' l k HR _ IH]; intros Hb; [by apply elem_of_nil in Hb|].
  apply elem_of_cons in Hb as [->|Hb].
  - exists a'. split; [left|done].
  - destruct (IH Hb) as (a & Ha & HRa). exists a. split; [by right|done].
Qed.

Lemma Forall2_elem_of_l {A B} (R : A → B → Prop) (l : list A) (k : list B) a :
  Forall2 R l k → a ∈ l → ∃ b, b ∈ k ∧ R a b.
Proof.
  induction 1 as [|a' b' l k HR _ IH]; intros Ha; [by apply elem_of_nil in Ha|].
  apply elem_of_cons in Ha as [->|Ha].
  - exists b'. split; [left|done].
  - destruct (IH Ha) as (b & Hb & HRb). exists b. split; [by right|done].
Qed.

End AlertFacts.

(** X17. [send_maintenance_alerts] never raises.  Each upcoming alert is for
    an operational equipment whose next maintenance is today or within the
    seven days after, each overdue alert for an operational equipment whose
    next maintenance was before today, and every operational equipment with
    such a date has its alert; the pending figure counts every incomplete
    maintenance log. *)
Theorem maintenance_alerts_cover_operational_equipment
    (db : Session) (today now : Z) :
  ∃ alerts,
    ScheduledTasks.send_maintenance_alerts db today now = inr alerts ∧
    (∀ a, a ∈ ScheduledTasks.upcoming_maintenance alerts →
       (today ≤ ScheduledTasks.alert_date a ≤ today + 7)%Z ∧
       ∃ e, e ∈ equipment db ∧ Equipment.status e = Some OPERATIONAL ∧
            Equipment.equipment_code e = ScheduledTasks.alert_equipment_code a ∧
            Equipment.next_maintenance_date e = Some (ScheduledTasks.alert_date a)) ∧
    (∀ a, a ∈ ScheduledTasks.overdue_maintenance alerts →
       (ScheduledTasks.alert_date a < today)%Z ∧
       ∃ e, e ∈ equipment db ∧ Equipment.status e = Some OPERATIONAL ∧
            Equipment.equipment_code e = ScheduledTasks.alert_equipment_code a ∧
            Equipment.next_maintenance_date e = Some (ScheduledTasks.alert_date a)) ∧
    (∀ e d, e ∈ equipment db → Equipment.status e = Some OPERATIONAL →
       Equipment.next_maintenance_date e = Some d →
       ((today ≤ d ≤ today + 7)%Z →
        ∃ a, a ∈ ScheduledTasks.upcoming_maintenance alerts ∧
             ScheduledTasks.alert_equipment_code a = Equipment.equipment_code e ∧
             ScheduledTasks.alert_date a = d) ∧
       ((d < today)%Z →
        ∃ a, a ∈ ScheduledTasks.overdue_maintenance alerts ∧
             ScheduledTasks.alert_equipment_code a = Equipment.equipment_code e ∧
             ScheduledTasks.alert_date a = d)) ∧
    ScheduledTasks.pending_maintenance_logs alerts =
      Z.of_nat (length (Spec.incomplete_logs db)).
Proof.
  unfold ScheduledTasks.send_maintenance_alerts.
  destruct (alert_entries_ok _ (upcoming_equipment_dated db today))
    as (upcoming & -> & Hup).
  destruct (alert_entries_ok _ (overdue_equipment_dated db today))
    as (overdue & -> & Hover).
  eexists. split; [done|].
  cbn [ScheduledTasks.upcoming_maintenance ScheduledTasks.overdue_maintenance
       ScheduledTasks.pending_maintenance_logs].
  split; [|split; [|split; [|done]]].
  - intros a Ha.
    destruct (Forall2_elem_of_r _ _ _ _ Hup Ha) as (e & He & Hcode & _ & Hdate).
    apply list_elem_of_filter in He as [(Hge & Hle & Hst) He].
    rewrite Hdate in Hge, Hle. cbn in Hge, Hle. split; [lia|]. by exists e.
  - intros a Ha.
    destruct (Forall2_elem_of_r _ _ _ _ Hover Ha) as (e & He & Hcode & _ & Hdate).
    apply list_elem_of_filter in He as [(Hlt & Hst) He].
    rewrite Hdate in Hlt. cbn in Hlt. split; [lia|]. by exists e.
  - intros e d He Hst Hd. split; intros Hrange.
    + destruct (Forall2_elem_of_l _ _ _ e Hup) as (a & Ha & Hcode & _ & Hdate).
      { apply list_elem_of_filter. rewrite Hd. cbn. split; [|done].
        repeat split; [lia..|done]. }
      exists a. split; [done|]. split; [done|]. congruence.
    + destruct (Forall2_elem_of_l _ _ _ e Hover) as (a & Ha & Hcode & _ & Hdate).
      { apply list_elem_of_filter. rewrite Hd. cbn. split; [|done].
        split; [lia|done]. }
      exists a. split; [done|]. split; [done|]. congruence.
Qed.

(** X18. The summary's [pending_maintenance] is the alert job's
    [pending_maintenance_logs] cut off at 5. *)
Theorem summary_pending_is_alert_pending_capped (db : Session) (today now : Z) :
  ∃ alerts,
    ScheduledTasks.send_maintenance_alerts db today now = inr alerts ∧
    Analytics.pending_maintenance (Analytics.get_summary db today) =
      (5 `min` ScheduledTasks.pending_maintenance_logs alerts)%Z.
Proof.
  unfold ScheduledTasks.send_maintenance_alerts.
  destruct (alert_entries_ok _ (upcoming_equipment_dated db today))
    as (upcoming & -> & _).
  destruct (alert_entries_ok _ (overdue_equipment_dated db today))
    as (overdue & -> & _).
  eexists. split; [done|]. cbn [ScheduledTasks.pending_maintenance_logs].
  unfold Analytics.get_summary. cbn [Analytics.pending_maintenance].
  unfold MiningService.get_maintenance_logs, Sql.offset_limit, Sql.order_by_desc.
  cbn [Py.truthy_opt_int].
  rewrite length_take, drop_0, merge_sort_Permutation. lia.
Qed.


(** ** More on the update operations *)

Section UpdateMoreFacts.
Import Orm.


Lemma value_eqb_Null (w : value) : value_eqb Null w = true → w = Null.
Proof. by destruct w. Qed.

Lemma model_dump_elem fields (request : gmap string value) k v :
  k ∈ fields → request !! k = Some v → (k, v) ∈ model_dump fields request.
Proof.
  intros Hk Hv. unfold model_dump. apply list_elem_of_omap.
  exists k. split; [done|]. by rewrite Hv.
Qed.

Lemma model_dump_keys_NoDup fields (request : gmap string value) :
  NoDup fields → NoDup (model_dump fields request).*1.
Proof.
  unfold model_dump. induction 1 as [|f fields Hf _ IH]; [constructor|].
  cbn [omap list_omap]. destruct (request !! f) as [v|] eqn:Hv; cbn; [|done].
  constructor; [|done]. intros Hin. apply Hf.
  by apply (model_dump_keys fields request f) in Hin as [Hin _].
Qed.

End UpdateMoreFacts.

Section UpdateRunFacts.
Import Orm.

Lemma setattr_loop_set (items : list (string * value)) (obj : instance) k v :
  NoDup items.*1 → (k, v) ∈ items →
  foldl (λ o kv, setattr o kv.1 kv.2) obj items !! k = Some v.
Proof.
  revert obj. induction items as [|[k' v'] items IH]; intros obj Hnd Hin;
    [by apply elem_of_nil in Hin|].
  cbn in Hnd. apply NoDup_cons in Hnd as [Hk' Hnd].
  apply elem_of_cons in Hin as [[= -> ->]|Hin]; cbn [foldl fst snd].
  - rewrite setattr_loop_frame by done. unfold setattr. apply lookup_insert_eq.
  - by apply IH.
Qed.


Lemma dirty_true_elem (loaded obj : instance) keys k :
  k ∈ keys → attr_eqb (obj !! k) (loaded !! k) = false →
  dirty loaded obj keys = true.
Proof.
  unfold dirty. induction keys as [|k' keys IH]; intros Hk Hne;
    [by apply elem_of_nil in Hk|].
  cbn. apply orb_true_iff.
  apply elem_of_cons in Hk as [->|Hk]; [left|right; by apply IH].
  by rewrite Hne.
Qed.




End UpdateRunFacts.

(** X20. An update of an id that no row has returns [None] and leaves the
    table as it is; and only then. *)
Theorem update_unknown_id (fields not_null : list string) (now : Z)
    (table : list (gmap string Orm.value)) (id : Z)
    (request : gmap string Orm.value) :
  (∀ row, row ∈ table → row !! "id" ≠ Some (Orm.Int id)) ↔
  Orm.update fields not_null now table id request = inr (None, table).
Proof.
  split.
  - intros Hno. apply update_not_found, list_find_None, Forall_forall.
    intros row Hrow. by apply Hno.
  - unfold Orm.update.
    destruct (list_find _ table) as [[i db_row]|] eqn:Hfind.
    + intros Hrun. apply bind_result_inr in Hrun as (stored & _ & Hret).
      discriminate.
    + intros _ row Hrow. apply list_find_None in Hfind.
      by eapply Forall_forall in Hfind.
Qed.



(** X23. A request that sets a [nullable=False] column of its schema to
    null, on a row where that column is set, is refused with
    [IntegrityError], and the table stays as it was. *)
Theorem update_null_in_required_column (fields not_null : list string) (now : Z)
    (table : list (gmap string Orm.value)) (id : Z)
    (request : gmap string Orm.value) (c : string) :
  NoDup fields → c ∈ fields → c ∈ not_null →
  request !! c = Some Orm.Null →
  (∃ row, row ∈ table ∧ row !! "id" = Some (Orm.Int id)) →
  (∀ row, row ∈ table → row !! "id" = Some (Orm.Int id) →
          row !! c ≠ Some Orm.Null) →
  Orm.update fields not_null now table id request = inl IntegrityError ∧
  Orm.table_after table (Orm.update fields not_null now table id request) = table.
Proof.
  intros Hnd Hc Hnn Hreq (row & Hrow & Hrow_id) Hset.
  assert (Orm.update fields not_null now table id request = inl IntegrityError)
    as Hrun; [|by rewrite Hrun].
  unfold Orm.update.
  destruct (list_find_elem_of (λ r : gmap string Orm.value,
              r !! "id" = Some (Orm.Int id)) table row Hrow Hrow_id)
    as [[i db_row] Hfind].
  rewrite Hfind. apply list_find_Some in Hfind as (Hi & Hdb_id & _).
  assert (foldl (λ o kv, Orm.setattr o kv.1 kv.2) db_row
            (Orm.model_dump fields request) !! c = Some Orm.Null) as Hobj.
  { apply setattr_loop_set; [by apply model_dump_keys_NoDup|].
    by apply model_dump_elem. }
  rewrite commit_refused; [done| |].
  - apply (dirty_true_elem _ _ _ c).
    + apply list_elem_of_fmap. exists (c, Orm.Null). split; [done|].
      by apply model_dump_elem.
    + rewrite Hobj. destruct (db_row !! c) as [w|] eqn:Hw; [|done]. cbn.
      destruct (Orm.value_eqb Orm.Null w) eqn:Heq; [|done].
      apply value_eqb_Null in Heq as ->.
      destruct (Hset db_row); [by eapply list_elem_of_lookup_2|done..].
  - apply existsb_exists. exists c. split; [by apply list_elem_of_In|].
    by rewrite Hobj.
Qed.

(** ** The authentication dependencies *)

Section DepsFacts.
Import Deps.

Lemma get_user_by_email_Some users email u :
  get_user_by_email users email = Some u →
  u ∈ users ∧ email = Some (User.email u).
Proof.
  unfold get_user_by_email.
  destruct (list_find _ users) as [[i u']|] eqn:Hfind; [|done].
  intros [= <-]. apply list_find_Some in Hfind as (Hi & Hemail & _).
  split; [by eapply list_elem_of_lookup_2|done].
Qed.

Lemma get_current_user_inr jwt_decode users token u :
  get_current_user jwt_decode users token = inr u →
  u ∈ users ∧ ∃ payload, jwt_decode token = Some payload ∧
                         sub payload = Some (User.email u).
Proof.
  unfold get_current_user, verify_token.
  destruct (jwt_decode token) as [payload|]; [|done].
  destruct (sub payload) as [email|] eqn:Hsub; [|done]. cbn.
  destruct (get_user_by_email users (Some email)) as [u'|] eqn:Hu; [|done].
  intros [= <-]. apply get_user_by_email_Some in Hu as [Hin [= ->]].
  split; [done|]. by exists payload.
Qed.

Lemma get_current_user_inl jwt_decode users token e :
  get_current_user jwt_decode users token = inl e → e = credentials_exception.
Proof.
  unfold get_current_user.
  destruct (verify_token jwt_decode token) as [data|]; [|by intros [= <-]].
  destruct (get_user_by_email users (token_email data)); [done|by intros [= <-]].
Qed.

End DepsFacts.

(** X24. A route that depends on [get_current_active_user] runs only for a
    user of the table whose email is the subject of a token that decodes and
    whose [is_active] flag is true; every other request is refused, with 401
    when the token or its user is not found and with 400 when the flag is
    false or NULL. *)
Theorem active_user_dependency (jwt_decode : string → option Deps.Payload)
    (users : list User.t) (token : string) :
  (∀ u, Deps.get_current_active_user
          (Deps.get_current_user jwt_decode users token) = inr u →
        u ∈ users ∧ User.is_active u = Some true ∧
        ∃ payload, jwt_decode token = Some payload ∧
                   Deps.sub payload = Some (User.email u)) ∧
  (∀ e, Deps.get_current_active_user
          (Deps.get_current_user jwt_decode users token) = inl e →
        (e = Deps.credentials_exception ∧
         ∀ u, Deps.get_current_user jwt_decode users token ≠ inr u) ∨
        (Deps.status_code e = 400%Z ∧
         ∃ u, Deps.get_current_user jwt_decode users token = inr u ∧
              User.is_active u ≠ Some true)).
Proof.
  split.
  - intros u. unfold Deps.get_current_active_user.
    destruct (Deps.get_current_user jwt_decode users token) as [e|u'] eqn:Hu;
      [done|].
    destruct (User.is_active u') as [[|]|] eqn:Hactive; [|done..].
    intros [= <-]. apply get_current_user_inr in Hu as [Hin Htoken]. done.
  - intros e. unfold Deps.get_current_active_user.
    destruct (Deps.get_current_user jwt_decode users token) as [e'|u] eqn:Hu.
    + intros [= <-]. left. split; [|done]. by eapply get_current_user_inl.
    + destruct (User.is_active u) as [[|]|] eqn:Hactive; [done|..];
        intros [= <-]; right; (split; [done|]); exists u;
        (split; [done|]); by rewrite Hactive.
Qed.

(** X25. The admin dependency lets through only active users whose role is
    [admin]; a user who is not active is refused with 400 whatever the role,
    and an active user with another role, or none, with 403. *)
Theorem admin_user_dependency (jwt_decode : string → option Deps.Payload)
    (users : list User.t) (token : string) :
  (∀ u, Deps.admin_user jwt_decode users token = inr u →
        u ∈ users ∧ User.is_active u = Some true ∧
        User.role u = Some "admin") ∧
  (∀ u, Deps.get_current_user jwt_decode users token = inr u →
        User.is_active u ≠ Some true →
        Deps.admin_user jwt_decode users token =
        inl {| Deps.status_code := 400; Deps.detail := "Inactive user" |}) ∧
  (∀ u, Deps.get_current_user jwt_decode users token = inr u →
        User.is_active u = Some true → User.role u ≠ Some "admin" →
        Deps.admin_user jwt_decode users token =
        inl {| Deps.status_code := 403; Deps.detail := "Not enough permissions" |}).
Proof.
  unfold Deps.admin_user, Deps.get_current_admin_user,
    Deps.get_current_active_user.
  split; [|split].
  - intros u Hrun.
    destruct (Deps.get_current_user jwt_decode users token) as [e|u'] eqn:Hu;
      [done|].
    destruct (User.is_active u') as [[|]|] eqn:Hactive; [|done..].
    destruct (decide (User.role u' = Some "admin")) as [Hrole|]; [|done].
    injection Hrun as <-. by apply get_current_user_inr in Hu as [Hin _].
  - intros u -> Hactive. by destruct (User.is_active u) as [[|]|].
  - intros u -> -> Hrole. by rewrite decide_False.
Qed.

(** ** The further properties on the scenario *)


Lemma db1_ore_non_negative engine : Spec.ore_non_negative (Scenario.db1 engine).
Proof.
  intros r q Hin Hq. cbn in Hin.
  repeat (apply elem_of_cons in Hin as [->|Hin]);
    [cbn in Hq; injection Hq as <-; done..|by apply elem_of_nil in Hin].
Qed.

Lemma get_shifts_inverted_range_witness :
  (10 < 12)%Z ∧
  MiningService.get_shifts (Scenario.db1 Sql.SQLite) 0 10 (Some 12%Z) (Some 10%Z)
    None = [].
Proof.
  split.
  - lia.
  - apply (get_shifts_inverted_range (Scenario.db1 Sql.SQLite) 0 10 12 10 None).
    lia.
Defined.

Lemma inverted_period_reports_nothing_witness :
  (10 < 12)%Z ∧
  MiningService.get_production_stats (Scenario.db1 Sql.SQLite) 12 10 =
    Behaviour.empty_stats 12 10 ∧
  MiningService.get_daily_production (Scenario.db1 Sql.SQLite) 12 10 = [].
Proof.
  split.
  - lia.
  - apply (inverted_period_reports_nothing (Scenario.db1 Sql.SQLite) 12 10). lia.
Defined.



Lemma summary_tracks_every_equipment_witness :
  equipment_ids_unique (Scenario.db1 Sql.SQLite) ∧
  Analytics.total_tracked (Analytics.get_summary (Scenario.db1 Sql.SQLite) 12) =
    Z.of_nat (length (equipment (Scenario.db1 Sql.SQLite))) ∧
  Analytics.top_performers (Analytics.get_summary (Scenario.db1 Sql.SQLite) 12) =
    take 5 (MiningService.get_equipment_utilization (Scenario.db1 Sql.SQLite)) ∧
  length (Analytics.top_performers
            (Analytics.get_summary (Scenario.db1 Sql.SQLite) 12)) =
    5 `min` length (equipment (Scenario.db1 Sql.SQLite)).
Proof.
  split.
  - apply (bool_decide_unpack _). vm_compute. reflexivity.
  - apply (summary_tracks_every_equipment (Scenario.db1 Sql.SQLite) 12).
    apply (bool_decide_unpack _). vm_compute. reflexivity.
Defined.


Lemma utilization_sqlite_non_increasing_witness :
  bind (Scenario.db1 Sql.SQLite) = Sql.SQLite ∧
  Spec.ore_non_negative (Scenario.db1 Sql.SQLite) ∧
  StronglySorted (flip Qle)
    (EquipmentUtilization.total_ore_extracted <$>
       MiningService.get_equipment_utilization (Scenario.db1 Sql.SQLite)).
Proof.
  split; [|split].
  - reflexivity.
  - apply db1_ore_non_negative.
  - apply (utilization_sqlite_non_increasing (Scenario.db1 Sql.SQLite)).
    + reflexivity.
    + apply db1_ore_non_negative.
Defined.



Lemma update_null_in_required_column_witness :
  NoDup Orm.MiningShiftUpdate ∧ "shift_type" ∈ Orm.MiningShiftUpdate ∧
  "shift_type" ∈ Orm.MiningShift_not_null ∧
  ({[ "shift_type" := Orm.Null ]} : gmap string Orm.value) !! "shift_type"
    = Some Orm.Null ∧
  Orm.update Orm.MiningShiftUpdate Orm.MiningShift_not_null 5
    [Scenario.shift_row] 1 {[ "shift_type" := Orm.Null ]} = inl IntegrityError ∧
  Orm.table_after [Scenario.shift_row]
    (Orm.update Orm.MiningShiftUpdate Orm.MiningShift_not_null 5
       [Scenario.shift_row] 1 {[ "shift_type" := Orm.Null ]})
  = [Scenario.shift_row].
Proof.
  assert (NoDup Orm.MiningShiftUpdate) as Hnd
    by (apply (bool_decide_unpack _); vm_compute; reflexivity).
  assert ("shift_type" ∈ Orm.MiningShiftUpdate) as Hin
    by (apply (bool_decide_unpack _); vm_compute; reflexivity).
  assert ("shift_type" ∈ Orm.MiningShift_not_null) as Hnn
    by (apply (bool_decide_unpack _); vm_compute; reflexivity).
  assert (({[ "shift_type" := Orm.Null ]} : gmap string Orm.value) !! "shift_type"
          = Some Orm.Null) as Hreq by (vm_compute; reflexivity).
  split; [done|]. split; [done|]. split; [done|]. split; [done|].
  apply (update_null_in_required_column Orm.MiningShiftUpdate
           Orm.MiningShift_not_null 5 [Scenario.shift_row] 1
           {[ "shift_type" := Orm.Null ]} "shift_type" Hnd Hin Hnn Hreq).
  - exists Scenario.shift_row. split; [left|]. vm_compute. reflexivity.
  - intros row Hrow _. apply list_elem_of_singleton in Hrow as ->.
    vm_compute. discriminate.
Defined.
